(** * notebook-mcp: the npm bootstrap launcher

    A shallow embedding of [npm/lib/launcher.js] and [npm/bin/notebook-mcp.js]
    together with the properties of the launcher that its specification
    states.

    The launcher talks to the outside world through four primitives:
    [process.env], [which.sync], [child_process.spawnSync] and
    [child_process.spawn].  They are modelled by a [Host] record of oracles;
    every call the launcher makes is appended to a history of [Event]s, and
    the oracles answer as a function of that history, so that the same
    command may succeed after having failed (the import probe before and
    after [pip install]).  JavaScript exceptions are the [Throw] completion
    of a small state-and-exception monad. *)

From Stdlib Require Import ZArith String Ascii List Lia.
From stdpp Require Import base strings gmap list pretty.

Open Scope string_scope.
Open Scope Z_scope.
Open Scope list_scope.

(** ** JavaScript values used by the launcher *)

Module Js.

(** An [Error] object: [name] and [message] as [Error.prototype] has
    them, the [stack] string the engine attached (if any) and the
    [exitCode] property the launcher adds to some of its errors. *)
Record Error := mkError {
  name : string;
  message : string;
  stack : option string;
  exitCode : option Z
}.

(** [e.exitCode = n] *)
Definition set_exitCode (e : Error) (n : Z) : Error :=
  {| name := name e; message := message e; stack := stack e;
     exitCode := Some n |}.

(** ToBoolean on a string: only the empty string is falsy. *)
Definition truthy (s : string) : bool :=
  match s with
  | EmptyString => false
  | String _ _ => true
  end.

(** ToBoolean on a value that is a string, [undefined] or [null]. *)
Definition truthy_opt (v : option string) : bool :=
  match v with
  | Some s => truthy s
  | None => false
  end.

(** [a || b] where [a] is a string or [undefined] and [b] a string. *)
Definition or_string (a : option string) (b : string) : string :=
  match a with
  | Some s => if truthy s then s else b
  | None => b
  end.

(** [code || 0] where [code] is a number or [null]. *)
Definition or_zero (code : option Z) : Z :=
  match code with
  | Some n => if Z.eqb n 0 then 0 else n
  | None => 0
  end.

(** [Error.prototype.toString], which is what [String(err)] calls. *)
Definition toString (e : Error) : string :=
  match name e, message e with
  | EmptyString, m => m
  | n, EmptyString => n
  | n, m => n +:+ ": " +:+ m
  end.

(** [s.split(sep)] for a one-character separator: the pieces between
    the separators, empty pieces included; the empty string gives one
    empty piece. *)
Fixpoint split (sep : ascii) (s : string) : list string :=
  match s with
  | EmptyString => [EmptyString]
  | String c s' =>
      if Ascii.eqb c sep then EmptyString :: split sep s'
      else match split sep s' with
           | t :: ts => String c t :: ts
           | [] => [String c EmptyString]
           end
  end.

(** [xs.filter(Boolean)] on an array of strings. *)
Definition filter_Boolean (xs : list string) : list string :=
  List.filter truthy xs.

(** [xs.join(sep)] *)
Definition join (sep : string) (xs : list string) : string :=
  String.concat sep xs.

(** The string ["\n"]. *)
Definition newline : string := String "010"%char EmptyString.

(** The text a template literal gives an integer number. *)
Definition number_to_string (n : Z) : string := pretty n.

End Js.

(** ** The host: environment, PATH, child processes *)

Inductive Stdio := StdioInherit | StdioIgnore.

(** What the launcher asks of the host, in order. *)
Inductive Event :=
| EvWhich (cmd : string)
| EvSpawnSync (cmd : string) (args : list string) (stdio : Stdio)
| EvSpawn (cmd : string) (args : list string) (stdio : Stdio).

(** [which.sync(c)] returns a path (or a falsy value) or throws. *)
Inductive WhichResult :=
| WhichReturns (p : option string)
| WhichThrows (e : Js.Error).

(** The object [spawnSync] returns: [error] when the child could not be
    run, [status] the exit code or [null]. *)
Record SpawnSyncResult := mkSpawnSyncResult {
  error : option Js.Error;
  status : option Z
}.

(** The first event the spawned backend emits: ["error"] with the error,
    or ["exit"] with [(code, signal)]. *)
Inductive ChildEvent :=
| ChildError (e : Js.Error)
| ChildExit (code : option Z) (signal : option string).

Record Host := mkHost {
  (** [process.env] *)
  env : gmap string string;
  (** [which.sync] on the PATH of the run *)
  which_sync : string -> WhichResult;
  (** the result of the [spawnSync] call that ends the given history *)
  spawnSync_result : list Event -> SpawnSyncResult;
  (** the outcome of the [spawn] call that ends the given history *)
  spawn_outcome : list Event -> ChildEvent;
  (** the frames the engine appends to the header of [new Error(msg).stack] *)
  stack_frames : string -> string
}.

(** ** Completions and the launcher monad *)

Inductive Completion (A : Type) :=
| Normal (a : A)
| Throw (e : Js.Error).
Arguments Normal {A} a.
Arguments Throw {A} e.

Definition M (A : Type) : Type := list Event -> Completion A * list Event.

Definition ret {A} (a : A) : M A := fun log => (Normal a, log).

Definition throw {A} (e : Js.Error) : M A := fun log => (Throw e, log).

Definition bind {A B} (m : M A) (k : A -> M B) : M B :=
  fun log =>
    match m log with
    | (Normal a, log') => k a log'
    | (Throw e, log') => (Throw e, log')
    end.

Notation "x <- m ;; k" := (bind m (fun x => k))
  (at level 100, m at next level, right associativity).
Notation "m ;;; k" := (bind m (fun _ => k))
  (at level 100, right associativity).

Section Launcher.

Variable h : Host.

(** [new Error(msg)]: the stack starts with the header ["Error: msg"]. *)
Definition new_Error (msg : string) : Js.Error :=
  {| Js.name := "Error";
     Js.message := msg;
     Js.stack := Some ("Error: " +:+ msg +:+ stack_frames h msg);
     Js.exitCode := None |}.

(** The calls to the host, each recorded in the history. *)
Definition which_call (c : string) : M WhichResult :=
  fun log => (Normal (which_sync h c), log ++ [EvWhich c]).

Definition spawnSync (cmd : string) (args : list string) (stdio : Stdio)
  : M SpawnSyncResult :=
  fun log =>
    let log' := log ++ [EvSpawnSync cmd args stdio] in
    (Normal (spawnSync_result h log'), log').

Definition spawn (cmd : string) (args : list string) (stdio : Stdio)
  : M ChildEvent :=
  fun log =>
    let log' := log ++ [EvSpawn cmd args stdio] in
    (Normal (spawn_outcome h log'), log').

(** *** findPython (launcher.js 5-19) *)

Definition candidates : list string := ["python"; "python3"; "py"].

(** The [for (const c of candidates)] loop with its try/catch. *)
Fixpoint findPython_loop (cs : list string) : M (option string) :=
  match cs with
  | [] => ret None
  | c :: cs' =>
      r <- which_call c ;;
      match r with
      | WhichReturns p =>
          if Js.truthy_opt p then ret p else findPython_loop cs'
      | WhichThrows _ => findPython_loop cs'
      end
  end.

Definition findPython : M (option string) :=
  let explicit := env h !! "NOTEBOOK_MCP_PYTHON" in
  if Js.truthy_opt explicit then ret explicit
  else findPython_loop candidates.

(** *** runChecked (launcher.js 21-29) *)

Definition command_line (cmd : string) (args : list string) : string :=
  cmd +:+ " " +:+ Js.join " " args.

Definition runChecked (cmd : string) (args : list string) : M unit :=
  res <- spawnSync cmd args StdioInherit ;;
  match error res with
  | Some e => throw e
  | None =>
      match status res with
      | Some n =>
          if negb (Z.eqb n 0) then
            let e := new_Error (command_line cmd args
                                +:+ " exited with code "
                                +:+ Js.number_to_string n) in
            throw (Js.set_exitCode e n)
          else ret tt
      | None => ret tt
      end
  end.

(** *** canImportNotebookMcp (launcher.js 31-34) *)

Definition import_probe_args : list string := ["-c"; "import notebook_mcp"].

Definition status_is_zero (st : option Z) : bool :=
  match st with
  | Some n => Z.eqb n 0
  | None => false
  end.

Definition canImportNotebookMcp (python : string) : M bool :=
  res <- spawnSync python import_probe_args StdioIgnore ;;
  ret (status_is_zero (status res)).

(** *** ensureInstalled (launcher.js 36-51) *)

Definition pip_spec : string :=
  Js.or_string (env h !! "NOTEBOOK_MCP_PIP_SPEC") "notebook-mcp".

Definition pip_extraArgs : list string :=
  Js.filter_Boolean
    (Js.split " "%char (Js.or_string (env h !! "NOTEBOOK_MCP_PIP_ARGS") "")).

Definition pip_args : list string :=
  ["-m"; "pip"; "install"; "-U"; pip_spec] ++ pip_extraArgs.

Definition not_importable_message : string :=
  "Installed notebook-mcp but it is still not importable. " +:+
  "Check that your Python environment is the one you expect (NOTEBOOK_MCP_PYTHON).".

Definition ensureInstalled (python : string) : M unit :=
  ok <- canImportNotebookMcp python ;;
  if ok then ret tt
  else
    runChecked python pip_args ;;;
    ok' <- canImportNotebookMcp python ;;
    if negb ok' then throw (new_Error not_importable_message)
    else ret tt.

(** *** launch (launcher.js 53-82)

    [launch] is an [async] function: a [Normal v] completion is the
    promise resolved with [v], a [Throw e] completion the promise
    rejected with [e]. *)

Definition python_not_found_message : string :=
  "Python was not found on PATH. Install Python 3.11+ and ensure `python` is available, " +:+
  "or set NOTEBOOK_MCP_PYTHON to the full path of your python executable.".

Definition backend_args (argv : list string) : list string :=
  ["-m"; "notebook_mcp.server"] ++ argv.

Definition signal_message (signal : string) : string :=
  "notebook-mcp exited due to signal " +:+ signal.

(** The ["error"] and ["exit"] handlers of the promise. *)
Definition settle (ev : ChildEvent) : M Z :=
  match ev with
  | ChildError e => throw e
  | ChildExit code signal =>
      match signal with
      | Some sg =>
          if Js.truthy sg then
            throw (Js.set_exitCode (new_Error (signal_message sg)) 1)
          else ret (Js.or_zero code)
      | None => ret (Js.or_zero code)
      end
  end.

Definition launch (argv : list string) : M Z :=
  python <- findPython ;;
  match python with
  | Some py =>
      if negb (Js.truthy py) then throw (new_Error python_not_found_message)
      else
        ensureInstalled py ;;;
        ev <- spawn py (backend_args argv) StdioInherit ;;
        settle ev
  | None => throw (new_Error python_not_found_message)
  end.

(** *** bin/notebook-mcp.js

    What the launcher process leaves behind: the text it wrote itself to
    the error stream, its exit status, and the calls it made. *)

Record Exit := mkExit {
  stderr_written : string;
  exit_status : Z;
  history : list Event
}.

(** [err && err.stack ? err.stack : String(err)] *)
Definition diagnostic (err : Js.Error) : string :=
  match Js.stack err with
  | Some s => if Js.truthy s then s else Js.toString err
  | None => Js.toString err
  end.

(** [launch(process.argv.slice(2)).catch(...)].  The script attaches a
    rejection handler only: on rejection it writes the diagnostic and
    calls [process.exit(1)]; on fulfilment no handler runs, the event loop
    drains and node ends the process with [process.exitCode], which
    nothing has set, that is with status 0. *)
Definition main (argv : list string) : Exit :=
  match launch argv [] with
  | (Throw err, log) =>
      {| stderr_written := diagnostic err +:+ Js.newline;
         exit_status := 1;
         history := log |}
  | (Normal _, log) =>
      {| stderr_written := "";
         exit_status := 0;
         history := log |}
  end.

End Launcher.

(** ** Specification-side notions *)

(** [t] occurs in [s]. *)
Definition Contains (s t : string) : Prop :=
  exists pre post, s = pre +:+ t +:+ post.

(** Deciding [Contains] on given strings. *)
Fixpoint is_infix (t s : string) : bool :=
  String.prefix t s ||
  match s with
  | EmptyString => false
  | String _ s' => is_infix t s'
  end.

(** The history has a [spawn] of the backend. *)
Definition is_spawn (ev : Event) : bool :=
  match ev with
  | EvSpawn _ _ _ => true
  | _ => false
  end.

Definition backend_spawned (log : list Event) : bool := existsb is_spawn log.

(** A candidate resolves when [which.sync] returns a usable path for it. *)
Definition resolves (h : Host) (c : string) : option string :=
  match which_sync h c with
  | WhichReturns (Some p) => if Js.truthy p then Some p else None
  | _ => None
  end.

(** The events of the two child processes of the Dependency Ensurer. *)
Definition probe_event (python : string) : Event :=
  EvSpawnSync python ["-c"; "import notebook_mcp"] StdioIgnore.

Definition install_event (python spec : string) (extra : list string) : Event :=
  EvSpawnSync python (["-m"; "pip"; "install"; "-U"; spec] ++ extra) StdioInherit.

Definition backend_event (python : string) (argv : list string) : Event :=
  EvSpawn python (["-m"; "notebook_mcp.server"] ++ argv) StdioInherit.

(** Whether the import probe run after the history [before] exits 0. *)
Definition probe_ok (h : Host) (python : string) (before : list Event) : bool :=
  status_is_zero (status (spawnSync_result h (before ++ [probe_event python]))).

(** What the install command run after the history [before] comes to. *)
Definition install_result (h : Host) (python : string) (before : list Event)
  : SpawnSyncResult :=
  spawnSync_result h
    (before ++ [install_event python (pip_spec h) (pip_extraArgs h)]).

(** What the backend spawned after the history [before] comes to. *)
Definition backend_outcome (h : Host) (python : string) (argv : list string)
    (before : list Event) : ChildEvent :=
  spawn_outcome h (before ++ [backend_event python argv]).

(** Tokens of a string: the maximal runs of characters that are not
    separators, in order.  [cur] is the run being read. *)
Definition emit (cur : string) : list string :=
  match cur with
  | EmptyString => []
  | _ => [cur]
  end.

Fixpoint tokens_from (is_sep : ascii -> bool) (cur s : string) : list string :=
  match s with
  | EmptyString => emit cur
  | String c s' =>
      if is_sep c then emit cur ++ tokens_from is_sep EmptyString s'
      else tokens_from is_sep (cur +:+ String c EmptyString) s'
  end.

Definition tokens (is_sep : ascii -> bool) (s : string) : list string :=
  tokens_from is_sep EmptyString s.

Definition is_space (c : ascii) : bool := Ascii.eqb c " ".

(** Space, tab, line feed, vertical tab, form feed, carriage return. *)
Definition is_whitespace (c : ascii) : bool :=
  existsb (Ascii.eqb c) [" "; "009"; "010"; "011"; "012"; "013"]%char.

(** The extra arguments as the specification words them: split on
    whitespace, empty tokens discarded. *)
Definition whitespace_tokens (s : string) : list string :=
  tokens is_whitespace s.

(** The extra arguments split on the space character only. *)
Definition space_tokens (s : string) : list string :=
  tokens is_space s.

(** ** Hosts used to run the launcher on concrete inputs *)

Module Hosts.

Definition exited (n : Z) : SpawnSyncResult := mkSpawnSyncResult None (Some n).

(** The child was ended by a signal: no error, no status. *)
Definition killed : SpawnSyncResult := mkSpawnSyncResult None None.

Definition is_spawnSync (ev : Event) : bool :=
  match ev with
  | EvSpawnSync _ _ _ => true
  | _ => false
  end.

(** The k-th [spawnSync] call of the run gets the k-th scripted result. *)
Definition scripted (script : list SpawnSyncResult) (log : list Event)
  : SpawnSyncResult :=
  nth (pred (length (List.filter is_spawnSync log))) script killed.

Definition not_found (c : string) : Js.Error :=
  Js.mkError "Error" ("not found: " +:+ c) None None.

(** A PATH on which only [python3] exists. *)
Definition which_python3 (c : string) : WhichResult :=
  if String.eqb c "python3" then WhichReturns (Some "/usr/bin/python3")
  else WhichThrows (not_found c).

(** A PATH on which [python] and [python3] both exist. *)
Definition which_both (c : string) : WhichResult :=
  if String.eqb c "python" then WhichReturns (Some "/usr/bin/python")
  else if String.eqb c "python3" then WhichReturns (Some "/usr/bin/python3")
  else WhichThrows (not_found c).

(** A PATH without any interpreter. *)
Definition which_none (c : string) : WhichResult :=
  WhichThrows (not_found c).

Definition frames (_ : string) : string :=
  Js.newline +:+ "    at launch (lib/launcher.js)".

Definition make (e : gmap string string) (w : string -> WhichResult)
    (script : list SpawnSyncResult) (child : ChildEvent) : Host :=
  {| env := e;
     which_sync := w;
     spawnSync_result := scripted script;
     spawn_outcome := fun _ => child;
     stack_frames := frames |}.

Definition tab : string := String "009"%char EmptyString.

(** Package importable, backend exits with code 3. *)
Definition backend_exits_3 : Host :=
  make ∅ which_python3 [exited 0] (ChildExit (Some 3) None).

(** The override is set to the empty string. *)
Definition empty_override : Host :=
  make {[ "NOTEBOOK_MCP_PYTHON" := "" ]} which_both [exited 0]
       (ChildExit (Some 0) None).

Definition with_override : Host :=
  make {[ "NOTEBOOK_MCP_PYTHON" := "/opt/py/bin/python" ]} which_none
       [exited 0] (ChildExit (Some 0) None).

(** Two extra installer arguments separated by a tab. *)
Definition tab_separated_args : Host :=
  make {[ "NOTEBOOK_MCP_PIP_ARGS" := "--quiet" +:+ tab +:+ "--no-cache-dir" ]}
       which_python3 [exited 1; exited 0; exited 0] (ChildExit (Some 0) None).

Definition space_separated_args : Host :=
  make (<[ "NOTEBOOK_MCP_PIP_SPEC" := "notebook-mcp==1.2" ]>
          {[ "NOTEBOOK_MCP_PIP_ARGS" := " --quiet  --no-cache-dir " ]})
       which_python3 [exited 1; exited 0; exited 0] (ChildExit (Some 0) None).

(** Probe fails, [pip install] exits with status 3. *)
Definition install_exits_3 : Host :=
  make ∅ which_python3 [exited 1; exited 3] (ChildExit (Some 0) None).

(** Backend ended by SIGTERM. *)
Definition backend_sigterm : Host :=
  make ∅ which_python3 [exited 0] (ChildExit None (Some "SIGTERM")).

Definition already_installed : Host :=
  make ∅ which_python3 [exited 0] (ChildExit (Some 0) None).

Definition no_interpreter : Host :=
  make ∅ which_none [] (ChildExit (Some 0) None).

(** Probe fails, install exits 0, probe fails again. *)
Definition still_not_importable : Host :=
  make ∅ which_python3 [exited 1; exited 0; exited 1] (ChildExit (Some 0) None).

(** Probe fails, install killed by a signal, probe fails again. *)
Definition install_killed : Host :=
  make ∅ which_python3 [exited 1; killed; exited 1] (ChildExit (Some 0) None).

End Hosts.

(** ** Further notions for whole runs *)

(** The child processes a run with interpreter [py] can have started, in
    order: probe and backend; probe and install; probe, install and
    re-probe; probe, install, re-probe and backend. *)
Definition child_sequences (h : Host) (py : string) (argv : list string)
  : list (list Event) :=
  let P := probe_event py in
  let I := install_event py (pip_spec h) (pip_extraArgs h) in
  let B := backend_event py argv in
  [[P; B]; [P; I]; [P; I; P]; [P; I; P; B]].



(** Two hosts that differ at most in environment variables the launcher
    has no name for. *)
Definition same_but_other_variables (h h' : Host) : Prop :=
  env h' !! "NOTEBOOK_MCP_PYTHON" = env h !! "NOTEBOOK_MCP_PYTHON"
  /\ env h' !! "NOTEBOOK_MCP_PIP_SPEC" = env h !! "NOTEBOOK_MCP_PIP_SPEC"
  /\ env h' !! "NOTEBOOK_MCP_PIP_ARGS" = env h !! "NOTEBOOK_MCP_PIP_ARGS"
  /\ (forall c, which_sync h' c = which_sync h c)
  /\ (forall l, spawnSync_result h' l = spawnSync_result h l)
  /\ (forall l, spawn_outcome h' l = spawn_outcome h l)
  /\ (forall m, stack_frames h' m = stack_frames h m).

(** What the entry script writes for a rejection with the error [e], in
    words: the stack of [e] when it has a non-empty one; otherwise its name,
    a colon, a space and its message, or just the one of the two that is
    not empty; and after it a line feed. *)
Definition error_report (e : Js.Error) (text : string) : Prop :=
  let nl := String "010"%char "" in
  (forall s, Js.stack e = Some s -> s <> "" -> text = s +:+ nl)
  /\ (Js.stack e = None \/ Js.stack e = Some "" ->
      (Js.name e <> "" -> Js.message e <> "" ->
       text = Js.name e +:+ ": " +:+ Js.message e +:+ nl)
      /\ (Js.name e = "" -> text = Js.message e +:+ nl)
      /\ (Js.message e = "" -> text = Js.name e +:+ nl)).

Module Scenarios.

(** An error of the operating system, as [spawnSync] and [spawn] report
    it. *)
Definition enoent (cmd : string) : Js.Error :=
  Js.mkError "Error" ("spawn " +:+ cmd +:+ " ENOENT")
             (Some ("Error: spawn " +:+ cmd +:+ " ENOENT" +:+ Hosts.frames ""))
             None.

(** The same from [spawnSync], which names itself in the message. *)
Definition enoent_sync (cmd : string) : Js.Error :=
  Js.mkError "Error" ("spawnSync " +:+ cmd +:+ " ENOENT")
             (Some ("Error: spawnSync " +:+ cmd +:+ " ENOENT" +:+ Hosts.frames ""))
             None.

Definition not_run (cmd : string) : SpawnSyncResult :=
  mkSpawnSyncResult (Some (enoent_sync cmd)) None.

(** An error object that has no stack. *)
Definition boom : Js.Error := Js.mkError "Error" "boom" None None.

(** Probe fails, install exits 0, the re-probe succeeds. *)
Definition install_then_importable : Host :=
  Hosts.make ∅ Hosts.which_python3
    [Hosts.exited 1; Hosts.exited 0; Hosts.exited 0] (ChildExit (Some 0) None).

(** The override names a file that does not exist: neither the probe nor
    the install command can be run. *)
Definition missing_interpreter : Host :=
  Hosts.make {[ "NOTEBOOK_MCP_PYTHON" := "/nonexistent/python" ]}
    Hosts.which_none
    [not_run "/nonexistent/python"; not_run "/nonexistent/python"]
    (ChildError (enoent "/nonexistent/python")).

(** The package is importable but the backend cannot be started. *)
Definition backend_not_started : Host :=
  Hosts.make ∅ Hosts.which_python3 [Hosts.exited 0]
    (ChildError (enoent "/usr/bin/python3")).

(** The backend exits with the code 42. *)
Definition backend_exits_42 : Host :=
  Hosts.make ∅ Hosts.which_python3 [Hosts.exited 0] (ChildExit (Some 42) None).

(** The override is unset, PATH as in [Hosts.empty_override]. *)
Definition unset_override : Host :=
  Hosts.make ∅ Hosts.which_both [Hosts.exited 0] (ChildExit (Some 0) None).

(** Variables of the backend in the environment. *)
Definition backend_variables : Host :=
  Hosts.make (<[ "NOTEBOOK_MCP_TRANSPORT" := "stdio" ]>
                {[ "JUPYTER_TOKEN" := "secret" ]})
    Hosts.which_python3 [Hosts.exited 1; Hosts.exited 3]
    (ChildExit (Some 0) None).



(** Probe fails, the install command cannot be run and the error has no
    stack. *)
Definition install_boom : Host :=
  Hosts.make ∅ Hosts.which_python3
    [Hosts.exited 1; mkSpawnSyncResult (Some boom) None]
    (ChildExit (Some 0) None).

(** The backend cannot be started and the error has no stack. *)
Definition backend_boom : Host :=
  Hosts.make ∅ Hosts.which_python3 [Hosts.exited 0] (ChildError boom).

(** Probe fails, [pip install] with a pinned spec and two extra arguments
    exits with status 3. *)
Definition install_with_args_exits_3 : Host :=
  Hosts.make (<[ "NOTEBOOK_MCP_PIP_SPEC" := "notebook-mcp==1.2" ]>
                {[ "NOTEBOOK_MCP_PIP_ARGS" := "--quiet --no-cache-dir" ]})
    Hosts.which_python3 [Hosts.exited 1; Hosts.exited 3]
    (ChildExit (Some 0) None).

End Scenarios.

(** ** The embedding on concrete runs *)

Example split_spaces :
  Js.split " " " --quiet  --no-cache-dir " =
  [""; "--quiet"; ""; "--no-cache-dir"; ""].
Proof. reflexivity. Qed.

Example split_empty : Js.split " " "" = [""].
Proof. reflexivity. Qed.

Example run_already_installed :
  main Hosts.already_installed ["--foo"] =
  {| stderr_written := "";
     exit_status := 0;
     history := [EvWhich "python"; EvWhich "python3";
                 probe_event "/usr/bin/python3";
                 backend_event "/usr/bin/python3" ["--foo"]] |}.
Proof. vm_compute. reflexivity. Qed.

Example run_install_exits_3 :
  launch Hosts.install_exits_3 [] [] =
  (Throw {| Js.name := "Error";
            Js.message := "/usr/bin/python3 -m pip install -U notebook-mcp exited with code 3";
            Js.stack := Some ("Error: /usr/bin/python3 -m pip install -U notebook-mcp exited with code 3"
                              +:+ Hosts.frames "");
            Js.exitCode := Some 3 |},
   [EvWhich "python"; EvWhich "python3";
    probe_event "/usr/bin/python3";
    install_event "/usr/bin/python3" "notebook-mcp" []]).
Proof. vm_compute. reflexivity. Qed.

(** ** Strings *)

Lemma append_cons (x : ascii) (a b : string) :
  String x a +:+ b = String x (a +:+ b).
Proof. reflexivity. Qed.

Lemma append_assoc (a b c : string) : (a +:+ b) +:+ c = a +:+ b +:+ c.
Proof.
  induction a as [|x a IH].
  - reflexivity.
  - now rewrite !append_cons, IH.
Qed.

Lemma append_empty_r (a : string) : a +:+ "" = a.
Proof.
  induction a as [|x a IH]; [reflexivity | now rewrite append_cons, IH].
Qed.

Lemma Contains_middle (pre t post : string) : Contains (pre +:+ t +:+ post) t.
Proof. now exists pre, post. Qed.

Lemma Contains_append_l (s t u : string) : Contains s t -> Contains (u +:+ s) t.
Proof.
  intros (pre & post & ->). exists (u +:+ pre), post.
  now rewrite append_assoc.
Qed.

Lemma Contains_append_r (s t u : string) : Contains s t -> Contains (s +:+ u) t.
Proof.
  intros (pre & post & ->). exists pre, (post +:+ u).
  now rewrite !append_assoc.
Qed.

Lemma Contains_trans (s t u : string) : Contains s t -> Contains t u -> Contains s u.
Proof.
  intros (a & b & ->) (pre & post & ->).
  exists (a +:+ pre), (post +:+ b).
  now rewrite !append_assoc.
Qed.

(** The diagnostic of an error made by [new Error] has its message in it. *)
Lemma diagnostic_new_Error (h : Host) (msg : string) :
  diagnostic (new_Error h msg) = "Error: " +:+ msg +:+ stack_frames h msg.
Proof. reflexivity. Qed.

Lemma diagnostic_set_exitCode (e : Js.Error) (n : Z) :
  diagnostic (Js.set_exitCode e n) = diagnostic e.
Proof. reflexivity. Qed.

Lemma diagnostic_contains_message (h : Host) (msg : string) :
  Contains (diagnostic (new_Error h msg)) msg.
Proof. rewrite diagnostic_new_Error. apply Contains_middle. Qed.

(** ** Runtime Locator *)

Lemma truthy_opt_Some (v : option string) :
  Js.truthy_opt v = true -> exists s, v = Some s /\ s <> "".
Proof.
  destruct v as [[|c s]|]; simpl; try discriminate.
  intros _. now exists (String c s).
Qed.

Lemma truthy_nonempty (s : string) : s <> "" -> Js.truthy s = true.
Proof. destruct s; [congruence | reflexivity]. Qed.

Lemma which_call_eq (h : Host) (c : string) (log : list Event) :
  which_call h c log = (Normal (which_sync h c), log ++ [EvWhich c]).
Proof. reflexivity. Qed.

(** One turn of the loop on a candidate that does not resolve: the probe is
    recorded, its failure is dropped, the loop goes on. *)
Lemma findPython_loop_skip (h : Host) (c : string) (cs : list string)
    (log : list Event) :
  resolves h c = None ->
  findPython_loop h (c :: cs) log = findPython_loop h cs (log ++ [EvWhich c]).
Proof.
  unfold resolves. intros Hc. simpl. unfold bind. rewrite which_call_eq.
  destruct (which_sync h c) as [[p|]|e]; simpl; try reflexivity.
  destruct (Js.truthy p); [discriminate | reflexivity].
Qed.

Lemma findPython_loop_hit (h : Host) (c p : string) (cs : list string)
    (log : list Event) :
  resolves h c = Some p ->
  findPython_loop h (c :: cs) log = (Normal (Some p), log ++ [EvWhich c]).
Proof.
  unfold resolves. intros Hc. simpl. unfold bind. rewrite which_call_eq.
  destruct (which_sync h c) as [[q|]|e]; simpl; try discriminate.
  destruct (Js.truthy q); [|discriminate].
  now injection Hc as ->.
Qed.

Lemma findPython_loop_none (h : Host) (cs : list string) :
  forall log,
    (forall c, In c cs -> resolves h c = None) ->
    findPython_loop h cs log = (Normal None, log ++ map EvWhich cs).
Proof.
  induction cs as [|c cs IH]; intros log Hnone.
  - simpl. now rewrite app_nil_r.
  - rewrite findPython_loop_skip by (apply Hnone; now left).
    rewrite IH by (intros c' Hc'; apply Hnone; now right).
    simpl. now rewrite <- app_assoc.
Qed.

Lemma findPython_loop_first (h : Host) (pre : list string) :
  forall (c : string) (post : list string) (p : string) (log : list Event),
    (forall c', In c' pre -> resolves h c' = None) ->
    resolves h c = Some p ->
    findPython_loop h (pre ++ c :: post) log =
    (Normal (Some p), log ++ map EvWhich (pre ++ [c])).
Proof.
  induction pre as [|c0 pre IH]; intros c post p log Hpre Hc.
  - simpl app. now apply findPython_loop_hit.
  - rewrite <- app_comm_cons.
    rewrite findPython_loop_skip by (apply Hpre; now left).
    rewrite (IH c post p) by (auto; intros c' Hc'; apply Hpre; now right).
    simpl. now rewrite <- app_assoc.
Qed.

(** Whatever the probes do, the loop returns a value; what it has asked
    of the host is a prefix of the candidate list. *)
Lemma findPython_loop_total (h : Host) (cs : list string) :
  forall log,
    exists r n,
      findPython_loop h cs log = (Normal r, log ++ map EvWhich (firstn n cs)).
Proof.
  induction cs as [|c cs IH]; intros log.
  - exists None, 0%nat. simpl. now rewrite app_nil_r.
  - destruct (resolves h c) as [p|] eqn:Hc.
    + exists (Some p), 1%nat. now apply findPython_loop_hit.
    + destruct (IH (log ++ [EvWhich c])) as (r & n & Hrn).
      exists r, (S n). rewrite findPython_loop_skip by assumption.
      rewrite Hrn. simpl. now rewrite <- app_assoc.
Qed.

Lemma findPython_loop_ext (h h' : Host) (cs : list string) :
  (forall c, which_sync h' c = which_sync h c) ->
  forall log, findPython_loop h' cs log = findPython_loop h cs log.
Proof.
  intros Hw. induction cs as [|c cs IH]; intros log; simpl.
  - reflexivity.
  - unfold bind. rewrite !which_call_eq, Hw.
    destruct (which_sync h c) as [p|e]; [destruct (Js.truthy_opt p)|]; auto.
Qed.

Lemma findPython_falsy (h : Host) (log : list Event) :
  Js.truthy_opt (env h !! "NOTEBOOK_MCP_PYTHON") = false ->
  findPython h log = findPython_loop h candidates log.
Proof. unfold findPython. now intros ->. Qed.

(** A path returned by [findPython] is never the empty string. *)
Lemma findPython_loop_truthy (h : Host) (cs : list string) :
  forall log py log',
    findPython_loop h cs log = (Normal (Some py), log') -> Js.truthy py = true.
Proof.
  induction cs as [|c cs IH]; intros log py log'; simpl.
  - unfold ret. congruence.
  - unfold bind. rewrite which_call_eq.
    destruct (which_sync h c) as [p|e]; [|apply IH].
    destruct (Js.truthy_opt p) eqn:Hp; [|apply IH].
    unfold ret. intros [= -> _]. exact Hp.
Qed.

Lemma findPython_truthy (h : Host) (log log' : list Event) (py : string) :
  findPython h log = (Normal (Some py), log') -> Js.truthy py = true.
Proof.
  unfold findPython.
  destruct (Js.truthy_opt (env h !! "NOTEBOOK_MCP_PYTHON")) eqn:He.
  - unfold ret. intros [= Hpy _]. now rewrite Hpy in He.
  - apply findPython_loop_truthy.
Qed.

(** C2, as stated, at the empty override: the variable is set, yet the
    locator probes PATH and returns the path of [python] instead of the
    value of the variable. *)
Lemma findPython_empty_override_probes_PATH :
  env Hosts.empty_override !! "NOTEBOOK_MCP_PYTHON" = Some "" /\
  findPython Hosts.empty_override [] =
    (Normal (Some "/usr/bin/python"), [EvWhich "python"]) /\
  ~ (forall (h : Host) (v : string) (log : list Event),
       env h !! "NOTEBOOK_MCP_PYTHON" = Some v ->
       findPython h log = (Normal (Some v), log)).
Proof.
  assert (He : env Hosts.empty_override !! "NOTEBOOK_MCP_PYTHON" = Some "")
    by (vm_compute; reflexivity).
  assert (Hf : findPython Hosts.empty_override [] =
               (Normal (Some "/usr/bin/python"), [EvWhich "python"]))
    by (vm_compute; reflexivity).
  repeat split; try assumption.
  intros Hall. specialize (Hall _ _ [] He). rewrite Hf in Hall. discriminate.
Qed.

(** C2 (amended): when NOTEBOOK_MCP_PYTHON is set to a non-empty value,
    [findPython] returns that value unchanged and asks nothing of the host:
    PATH is not probed, whatever is on it. *)
Theorem findPython_override (h : Host) (v : string) (log : list Event) :
  env h !! "NOTEBOOK_MCP_PYTHON" = Some v ->
  v <> "" ->
  findPython h log = (Normal (Some v), log).
Proof.
  intros He Hv. unfold findPython. rewrite He. simpl.
  now rewrite truthy_nonempty.
Qed.

Lemma findPython_override_witness :
  findPython Hosts.with_override [] = (Normal (Some "/opt/py/bin/python"), []).
Proof.
  apply (findPython_override Hosts.with_override "/opt/py/bin/python" []).
  - vm_compute. reflexivity.
  - discriminate.
Defined.

(** C6: with the override unset, [findPython] goes through
    [python], [python3], [py] in this order.  (1) It always returns a value:
    a probe that throws or finds nothing is dropped and the next candidate
    is tried, and the probes made are a prefix of the list.  (2) It returns
    the path of the first candidate that resolves, and the probes stop at
    that candidate.  (3) If exactly one candidate resolves, its path is
    returned.  (4) The result depends on the environment and PATH only. *)
Theorem findPython_first_resolving_candidate (h : Host) (log : list Event) :
  env h !! "NOTEBOOK_MCP_PYTHON" = None ->
  (exists r n,
     findPython h log =
     (Normal r, log ++ map EvWhich (firstn n ["python"; "python3"; "py"])))
  /\ (forall pre c post p,
        ["python"; "python3"; "py"] = pre ++ c :: post ->
        (forall c', In c' pre -> resolves h c' = None) ->
        resolves h c = Some p ->
        findPython h log = (Normal (Some p), log ++ map EvWhich (pre ++ [c])))
  /\ (forall c p,
        In c ["python"; "python3"; "py"] ->
        resolves h c = Some p ->
        (forall c', In c' ["python"; "python3"; "py"] -> c' <> c ->
                    resolves h c' = None) ->
        exists log', findPython h log = (Normal (Some p), log'))
  /\ (forall h',
        env h' = env h ->
        (forall c, which_sync h' c = which_sync h c) ->
        findPython h' log = findPython h log).
Proof.
  intros He.
  assert (Hf : forall g, env g = env h ->
                 findPython g log = findPython_loop g candidates log).
  { intros g Hg. apply findPython_falsy. now rewrite Hg, He. }
  split; [|split; [|split]].
  - rewrite Hf by reflexivity. apply findPython_loop_total.
  - intros pre c post p Hsplit Hpre Hc.
    rewrite Hf by reflexivity. unfold candidates. rewrite Hsplit.
    now apply findPython_loop_first.
  - intros c p Hin Hc Hothers.
    rewrite Hf by reflexivity. unfold candidates.
    assert (Hskip : forall c', In c' ["python"; "python3"; "py"] -> c' <> c ->
                               forall cs l, findPython_loop h (c' :: cs) l =
                                            findPython_loop h cs (l ++ [EvWhich c'])).
    { intros c' Hin' Hne cs l. apply findPython_loop_skip. now apply Hothers. }
    destruct Hin as [<- | [<- | [<- | []]]].
    + eexists. now apply findPython_loop_hit.
    + rewrite Hskip by (simpl; auto; discriminate).
      eexists. now apply findPython_loop_hit.
    + rewrite Hskip by (simpl; auto; discriminate).
      rewrite Hskip by (simpl; auto; discriminate).
      eexists. now apply findPython_loop_hit.
  - intros h' Henv Hw. rewrite !Hf by auto. now apply findPython_loop_ext.
Qed.

Lemma findPython_first_resolving_candidate_witness :
  findPython Hosts.already_installed [] =
  (Normal (Some "/usr/bin/python3"), [EvWhich "python"; EvWhich "python3"]).
Proof.
  assert (He : env Hosts.already_installed !! "NOTEBOOK_MCP_PYTHON" = None)
    by (vm_compute; reflexivity).
  destruct (findPython_first_resolving_candidate Hosts.already_installed [] He)
    as (_ & Hfirst & _).
  apply (Hfirst ["python"] "python3" ["py"] "/usr/bin/python3").
  - reflexivity.
  - intros c' [<- | []]. vm_compute. reflexivity.
  - vm_compute. reflexivity.
Defined.

(** ** Dependency Ensurer *)

Lemma spawnSync_eq (h : Host) (cmd : string) (args : list string) (io : Stdio)
    (log : list Event) :
  spawnSync h cmd args io log =
  (Normal (spawnSync_result h (log ++ [EvSpawnSync cmd args io])),
   log ++ [EvSpawnSync cmd args io]).
Proof. reflexivity. Qed.

Lemma canImportNotebookMcp_eq (h : Host) (python : string) (log : list Event) :
  canImportNotebookMcp h python log =
  (Normal (probe_ok h python log), log ++ [probe_event python]).
Proof. reflexivity. Qed.

Lemma install_event_eq (h : Host) (python : string) :
  EvSpawnSync python (pip_args h) StdioInherit =
  install_event python (pip_spec h) (pip_extraArgs h).
Proof. reflexivity. Qed.

(** The three ways [runChecked] can find the install command. *)
Lemma runChecked_install_nonzero (h : Host) (python : string)
    (log : list Event) (n : Z) :
  install_result h python log = {| error := None; status := Some n |} ->
  n <> 0 ->
  runChecked h python (pip_args h) log =
  (Throw (Js.set_exitCode
            (new_Error h (command_line python (pip_args h)
                          +:+ " exited with code " +:+ pretty n)) n),
   log ++ [install_event python (pip_spec h) (pip_extraArgs h)]).
Proof.
  intros Hres Hn. unfold runChecked, bind. rewrite spawnSync_eq.
  rewrite install_event_eq. fold (install_result h python log).
  rewrite Hres. simpl.
  destruct (Z.eqb_spec n 0) as [->|_]; [contradiction | reflexivity].
Qed.

Lemma runChecked_install_quiet (h : Host) (python : string)
    (log : list Event) (st : option Z) :
  install_result h python log = {| error := None; status := st |} ->
  st = Some 0 \/ st = None ->
  runChecked h python (pip_args h) log =
  (Normal tt, log ++ [install_event python (pip_spec h) (pip_extraArgs h)]).
Proof.
  intros Hres Hst. unfold runChecked, bind. rewrite spawnSync_eq.
  rewrite install_event_eq. fold (install_result h python log).
  rewrite Hres. simpl. now destruct Hst as [-> | ->].
Qed.

(** Whatever [runChecked] does, it records exactly the one command. *)
Lemma runChecked_history (h : Host) (cmd : string) (args : list string)
    (log : list Event) :
  snd (runChecked h cmd args log) = log ++ [EvSpawnSync cmd args StdioInherit].
Proof.
  unfold runChecked, bind. rewrite spawnSync_eq.
  destruct (error _); [reflexivity|].
  destruct (status _) as [n|]; [|reflexivity].
  now destruct (negb (n =? 0)).
Qed.

Lemma ensureInstalled_probe_ok (h : Host) (python : string) (log : list Event) :
  probe_ok h python log = true ->
  ensureInstalled h python log = (Normal tt, log ++ [probe_event python]).
Proof.
  intros Hok. unfold ensureInstalled, bind.
  now rewrite canImportNotebookMcp_eq, Hok.
Qed.

(** After a failed probe the install command runs; if it throws, so does
    the ensurer, at once; otherwise the re-probe decides. *)
Lemma ensureInstalled_probe_failed (h : Host) (python : string)
    (log : list Event) :
  probe_ok h python log = false ->
  ensureInstalled h python log =
  match runChecked h python (pip_args h) (log ++ [probe_event python]) with
  | (Throw e, log2) => (Throw e, log2)
  | (Normal _, log2) =>
      (if probe_ok h python log2 then Normal tt
       else Throw (new_Error h not_importable_message),
       log2 ++ [probe_event python])
  end.
Proof.
  intros Hok. unfold ensureInstalled, bind at 1.
  rewrite canImportNotebookMcp_eq, Hok. unfold bind at 1.
  destruct (runChecked h python (pip_args h) (log ++ [probe_event python]))
    as [[[]|e] log2]; [|reflexivity].
  unfold bind. rewrite canImportNotebookMcp_eq.
  now destruct (probe_ok h python log2).
Qed.

Lemma app_two {A} (l : list A) (a b : A) : (l ++ [a]) ++ [b] = l ++ [a; b].
Proof. now rewrite <- app_assoc. Qed.

Lemma app_three {A} (l : list A) (a b c : A) :
  ((l ++ [a]) ++ [b]) ++ [c] = l ++ [a; b; c].
Proof. now rewrite <- !app_assoc. Qed.

Lemma ensureInstalled_install_quiet (h : Host) (python : string)
    (log : list Event) (st : option Z) :
  probe_ok h python log = false ->
  install_result h python (log ++ [probe_event python]) =
    {| error := None; status := st |} ->
  st = Some 0 \/ st = None ->
  ensureInstalled h python log =
  (if probe_ok h python
        (log ++ [probe_event python;
                 install_event python (pip_spec h) (pip_extraArgs h)])
   then Normal tt
   else Throw (new_Error h not_importable_message),
   log ++ [probe_event python;
           install_event python (pip_spec h) (pip_extraArgs h);
           probe_event python]).
Proof.
  intros Hok Hres Hst.
  rewrite ensureInstalled_probe_failed by assumption.
  rewrite (runChecked_install_quiet h python _ st) by assumption.
  now rewrite app_three, app_two.
Qed.

(** C7: if the initial import probe exits with status 0,
    [ensureInstalled] returns normally and the import probe is the only
    child process it has run: no install command is spawned. *)
Theorem ensureInstalled_importable_no_install (h : Host) (python : string)
    (log : list Event) :
  status (spawnSync_result h (log ++ [probe_event python])) = Some 0 ->
  ensureInstalled h python log = (Normal tt, log ++ [probe_event python]).
Proof.
  intros Hst. apply ensureInstalled_probe_ok. unfold probe_ok. now rewrite Hst.
Qed.

Lemma ensureInstalled_importable_no_install_witness :
  ensureInstalled Hosts.already_installed "/usr/bin/python3" [] =
  (Normal tt, [probe_event "/usr/bin/python3"]).
Proof.
  apply (ensureInstalled_importable_no_install
           Hosts.already_installed "/usr/bin/python3" []).
  vm_compute. reflexivity.
Defined.

(** ** The launcher as a whole *)

Lemma prefix_append (t s : string) :
  String.prefix t s = true -> exists post, s = t +:+ post.
Proof.
  revert s. induction t as [|x t IH]; intros s.
  - intros _. now exists s.
  - destruct s as [|y s]; simpl; [discriminate|].
    destruct (ascii_dec x y) as [->|]; [|discriminate].
    intros Hp. destruct (IH s Hp) as (post & ->). now exists post.
Qed.

Lemma is_infix_Contains (s t : string) : is_infix t s = true -> Contains s t.
Proof.
  induction s as [|y s IH]; intros Hi; cbn [is_infix] in Hi.
  - apply orb_true_iff in Hi as [Hp | ?]; [|discriminate].
    apply prefix_append in Hp as (post & ->). now exists "", post.
  - apply orb_true_iff in Hi as [Hp | Hi].
    + apply prefix_append in Hp as (post & ->). now exists "", post.
    + destruct (IH Hi) as (pre & post & ->). now exists (String y pre), post.
Qed.

Lemma backend_spawned_app (l1 l2 : list Event) :
  backend_spawned (l1 ++ l2) = backend_spawned l1 || backend_spawned l2.
Proof. apply existsb_app. Qed.

Lemma backend_spawned_which (cs : list string) :
  backend_spawned (map EvWhich cs) = false.
Proof. induction cs; [reflexivity | assumption]. Qed.

(** The locator only ever probes PATH. *)
Lemma findPython_history (h : Host) (log : list Event) :
  exists n, snd (findPython h log) = log ++ map EvWhich (firstn n candidates).
Proof.
  unfold findPython.
  destruct (Js.truthy_opt (env h !! "NOTEBOOK_MCP_PYTHON")).
  - exists 0%nat. simpl. now rewrite app_nil_r.
  - destruct (findPython_loop_total h candidates log) as (r & n & ->).
    now exists n.
Qed.

Lemma findPython_no_spawn (h : Host) (r : Completion (option string))
    (log0 : list Event) :
  findPython h [] = (r, log0) -> backend_spawned log0 = false.
Proof.
  intros Hf. destruct (findPython_history h []) as (n & Hn).
  rewrite Hf in Hn. simpl in Hn. subst log0. apply backend_spawned_which.
Qed.

Lemma launch_found (h : Host) (argv : list string) (py : string)
    (log0 : list Event) :
  findPython h [] = (Normal (Some py), log0) ->
  launch h argv [] =
  match ensureInstalled h py log0 with
  | (Throw e, log1) => (Throw e, log1)
  | (Normal _, log1) =>
      settle h (backend_outcome h py argv log1) (log1 ++ [backend_event py argv])
  end.
Proof.
  intros Hf. unfold launch, bind at 1. rewrite Hf.
  rewrite (findPython_truthy _ _ _ _ Hf). simpl. unfold bind at 1.
  destruct (ensureInstalled h py log0) as [[[]|e] log1]; reflexivity.
Qed.

Lemma launch_not_found (h : Host) (argv : list string) (log0 : list Event) :
  findPython h [] = (Normal None, log0) ->
  launch h argv [] = (Throw (new_Error h python_not_found_message), log0).
Proof. intros Hf. unfold launch, bind. now rewrite Hf. Qed.

Lemma main_rejected (h : Host) (argv : list string) (e : Js.Error)
    (log : list Event) :
  launch h argv [] = (Throw e, log) ->
  main h argv = {| stderr_written := diagnostic e +:+ Js.newline;
                   exit_status := 1;
                   history := log |}.
Proof. intros Hl. unfold main. now rewrite Hl. Qed.

(** When the promise of [launch] is fulfilled, its value is not looked
    at: the process ends with status 0. *)
Lemma main_fulfilled (h : Host) (argv : list string) (v : Z)
    (log : list Event) :
  launch h argv [] = (Normal v, log) ->
  main h argv = {| stderr_written := ""; exit_status := 0; history := log |}.
Proof. intros Hl. unfold main. now rewrite Hl. Qed.

(** A fatal error made by [new Error]: status 1, the message on the error
    stream. *)
Lemma main_fatal (h : Host) (argv : list string) (e : Js.Error) (msg : string)
    (log : list Event) :
  launch h argv [] = (Throw e, log) ->
  diagnostic e = diagnostic (new_Error h msg) ->
  main h argv = {| stderr_written := diagnostic e +:+ Js.newline;
                   exit_status := 1;
                   history := log |}
  /\ Contains (stderr_written (main h argv)) msg.
Proof.
  intros Hl Hd. rewrite (main_rejected h argv e log Hl). split; [reflexivity|].
  simpl. rewrite Hd. apply Contains_append_r, diagnostic_contains_message.
Qed.

(** The Process Supervisor resolves with the code of a backend that exits
    normally. *)
Lemma launch_resolves_with_backend_code (h : Host) (argv : list string)
    (py : string) (log0 log1 : list Event) (n : Z) :
  findPython h [] = (Normal (Some py), log0) ->
  ensureInstalled h py log0 = (Normal tt, log1) ->
  backend_outcome h py argv log1 = ChildExit (Some n) None ->
  launch h argv [] = (Normal n, log1 ++ [backend_event py argv]).
Proof.
  intros Hf He Hb. rewrite (launch_found h argv py log0 Hf), He, Hb.
  simpl. unfold ret. now destruct (Z.eqb_spec n 0) as [->|].
Qed.

(** C1: the backend exits normally with code 3.  [launch]
    resolves with 3, and the launcher process ends with status 0: the value
    the promise resolves with is dropped by [bin/notebook-mcp.js]. *)
Theorem backend_exit_code_dropped :
  launch Hosts.backend_exits_3 ["--foo"] [] =
    (Normal 3, [EvWhich "python"; EvWhich "python3";
                probe_event "/usr/bin/python3";
                backend_event "/usr/bin/python3" ["--foo"]])
  /\ exit_status (main Hosts.backend_exits_3 ["--foo"]) = 0.
Proof. split; vm_compute; reflexivity. Qed.

(** For every code the backend exits with, the launcher ends with 0. *)
Lemma main_exit_status_after_normal_exit (h : Host) (argv : list string)
    (py : string) (log0 log1 : list Event) (n : Z) :
  findPython h [] = (Normal (Some py), log0) ->
  ensureInstalled h py log0 = (Normal tt, log1) ->
  backend_outcome h py argv log1 = ChildExit (Some n) None ->
  exit_status (main h argv) = 0.
Proof.
  intros Hf He Hb.
  now rewrite (main_fulfilled h argv n _
                 (launch_resolves_with_backend_code h argv py log0 log1 n Hf He Hb)).
Qed.

(** C5: the backend is ended by a signal.  [launch] rejects with
    an error whose message names the signal and whose [exitCode] is 1; the
    launcher writes that message to the error stream and exits with status
    1, whatever the signal. *)
Theorem backend_signal_is_fatal (h : Host) (argv : list string) (py : string)
    (log0 log1 : list Event) (code : option Z) (sg : string) :
  findPython h [] = (Normal (Some py), log0) ->
  ensureInstalled h py log0 = (Normal tt, log1) ->
  backend_outcome h py argv log1 = ChildExit code (Some sg) ->
  sg <> "" ->
  exit_status (main h argv) = 1
  /\ Contains (stderr_written (main h argv))
              ("notebook-mcp exited due to signal " +:+ sg)
  /\ exists e,
       launch h argv [] = (Throw e, log1 ++ [backend_event py argv])
       /\ Js.message e = "notebook-mcp exited due to signal " +:+ sg
       /\ Js.exitCode e = Some 1.
Proof.
  intros Hf He Hb Hsg.
  assert (Hl : launch h argv [] =
               (Throw (Js.set_exitCode (new_Error h (signal_message sg)) 1),
                log1 ++ [backend_event py argv])).
  { rewrite (launch_found h argv py log0 Hf), He, Hb. simpl.
    now rewrite truthy_nonempty. }
  destruct (main_fatal h argv _ (signal_message sg) _ Hl eq_refl) as (Hm & Hc).
  split; [now rewrite Hm|]. split; [exact Hc|].
  eexists. split; [exact Hl|]. split; reflexivity.
Qed.

Lemma backend_signal_is_fatal_witness :
  exit_status (main Hosts.backend_sigterm []) = 1
  /\ Contains (stderr_written (main Hosts.backend_sigterm []))
              "notebook-mcp exited due to signal SIGTERM".
Proof.
  destruct (backend_signal_is_fatal Hosts.backend_sigterm [] "/usr/bin/python3"
              [EvWhich "python"; EvWhich "python3"]
              [EvWhich "python"; EvWhich "python3"; probe_event "/usr/bin/python3"]
              None "SIGTERM")
    as (Hs & Hc & _).
  - vm_compute. reflexivity.
  - vm_compute. reflexivity.
  - vm_compute. reflexivity.
  - discriminate.
  - split; [exact Hs | exact Hc].
Defined.

Lemma main_ensure_failed (h : Host) (argv : list string) (py : string)
    (log0 log1 : list Event) (e : Js.Error) :
  findPython h [] = (Normal (Some py), log0) ->
  ensureInstalled h py log0 = (Throw e, log1) ->
  launch h argv [] = (Throw e, log1).
Proof. intros Hf He. now rewrite (launch_found h argv py log0 Hf), He. Qed.

Lemma no_spawn_after_ensure (h : Host) (py : string) (log0 : list Event)
    (r : Completion (option string)) (evs : list Event) :
  findPython h [] = (r, log0) ->
  backend_spawned evs = false ->
  backend_spawned (log0 ++ evs) = false.
Proof.
  intros Hf Hevs.
  now rewrite backend_spawned_app, (findPython_no_spawn h r log0 Hf), Hevs.
Qed.

(** C4: the install command exits with a non-zero status [n].
    [ensureInstalled] throws an error whose message is the command line
    that was run (the interpreter and the arguments of the install command,
    separated by single spaces) followed by "exited with code n" and whose
    [exitCode] is [n]; the run has made the probe and the install command
    and nothing after them (no re-probe, no backend); the launcher writes
    the message to the error stream and exits with status 1. *)
Theorem install_failure_is_fatal (h : Host) (argv : list string) (py : string)
    (log0 : list Event) (n : Z) :
  findPython h [] = (Normal (Some py), log0) ->
  probe_ok h py log0 = false ->
  install_result h py (log0 ++ [probe_event py]) =
    {| error := None; status := Some n |} ->
  n <> 0 ->
  let args := ["-m"; "pip"; "install"; "-U"; pip_spec h] ++ pip_extraArgs h in
  let install := EvSpawnSync py args StdioInherit in
  let msg :=
    String.concat " " (py :: args) +:+ " exited with code " +:+ pretty n in
  (exists e,
     ensureInstalled h py log0 = (Throw e, log0 ++ [probe_event py; install])
     /\ Js.message e = msg
     /\ Js.exitCode e = Some n)
  /\ history (main h argv) = log0 ++ [probe_event py; install]
  /\ backend_spawned (history (main h argv)) = false
  /\ exit_status (main h argv) = 1
  /\ Contains (stderr_written (main h argv)) msg.
Proof.
  intros Hf Hok Hres Hn args install msg.
  assert (Hmsg : command_line py (pip_args h) +:+ " exited with code " +:+ pretty n
                 = msg).
  { reflexivity. }
  assert (He : ensureInstalled h py log0 =
               (Throw (Js.set_exitCode (new_Error h msg) n),
                log0 ++ [probe_event py; install])).
  { rewrite ensureInstalled_probe_failed by assumption.
    rewrite (runChecked_install_nonzero h py _ n) by assumption.
    now rewrite Hmsg, app_two. }
  pose proof (main_ensure_failed h argv py log0 _ _ Hf He) as Hl.
  destruct (main_fatal h argv _ msg _ Hl eq_refl) as (Hm & Hc).
  split; [eexists; split; [exact He | split; reflexivity]|].
  rewrite Hm in *. simpl. repeat split; try assumption.
  now apply (no_spawn_after_ensure h py log0 _ _ Hf).
Qed.

Lemma install_failure_is_fatal_witness :
  exit_status (main Scenarios.install_with_args_exits_3 []) = 1
  /\ Contains (stderr_written (main Scenarios.install_with_args_exits_3 []))
       "/usr/bin/python3 -m pip install -U notebook-mcp==1.2 --quiet --no-cache-dir exited with code 3"
  /\ history (main Scenarios.install_with_args_exits_3 []) =
     [EvWhich "python"; EvWhich "python3";
      EvSpawnSync "/usr/bin/python3" ["-c"; "import notebook_mcp"] StdioIgnore;
      EvSpawnSync "/usr/bin/python3"
        ["-m"; "pip"; "install"; "-U"; "notebook-mcp==1.2";
         "--quiet"; "--no-cache-dir"] StdioInherit]
  /\ (exists e,
        fst (ensureInstalled Scenarios.install_with_args_exits_3
               "/usr/bin/python3" [EvWhich "python"; EvWhich "python3"]) = Throw e
        /\ Js.message e =
           "/usr/bin/python3 -m pip install -U notebook-mcp==1.2 --quiet --no-cache-dir exited with code 3"
        /\ Js.exitCode e = Some 3).
Proof.
  destruct (install_failure_is_fatal Scenarios.install_with_args_exits_3 []
              "/usr/bin/python3" [EvWhich "python"; EvWhich "python3"] 3)
    as ((e & He & Hmsg & Hcode) & Hh & _ & Hs & Hc).
  - vm_compute. reflexivity.
  - vm_compute. reflexivity.
  - vm_compute. reflexivity.
  - lia.
  - split; [exact Hs|]. split; [|split].
    + eapply Contains_trans; [exact Hc|].
      apply is_infix_Contains. vm_compute. reflexivity.
    + rewrite Hh. vm_compute. reflexivity.
    + exists e. rewrite He, Hmsg. split; [reflexivity|].
      split; [vm_compute; reflexivity | exact Hcode].
Defined.

(** C9: the install command exits with status 0 and the re-probe
    still fails.  [ensureInstalled] throws the error that says the package
    was installed but is still not importable and points at
    NOTEBOOK_MCP_PYTHON; the backend is not spawned; the launcher writes the
    message and exits with status 1. *)
Theorem post_install_verification_failure (h : Host) (argv : list string)
    (py : string) (log0 : list Event) :
  findPython h [] = (Normal (Some py), log0) ->
  probe_ok h py log0 = false ->
  install_result h py (log0 ++ [probe_event py]) =
    {| error := None; status := Some 0 |} ->
  let install := install_event py (pip_spec h) (pip_extraArgs h) in
  probe_ok h py (log0 ++ [probe_event py; install]) = false ->
  let msg :=
    "Installed notebook-mcp but it is still not importable. Check that your Python environment is the one you expect (NOTEBOOK_MCP_PYTHON)." in
  ensureInstalled h py log0 =
    (Throw (new_Error h msg),
     log0 ++ [probe_event py; install; probe_event py])
  /\ history (main h argv) = log0 ++ [probe_event py; install; probe_event py]
  /\ backend_spawned (history (main h argv)) = false
  /\ exit_status (main h argv) = 1
  /\ Contains (stderr_written (main h argv)) msg.
Proof.
  intros Hf Hok Hres install Hre msg.
  assert (He : ensureInstalled h py log0 =
               (Throw (new_Error h msg),
                log0 ++ [probe_event py; install; probe_event py])).
  { rewrite (ensureInstalled_install_quiet h py log0 (Some 0)); auto.
    fold install. now rewrite Hre. }
  pose proof (main_ensure_failed h argv py log0 _ _ Hf He) as Hl.
  destruct (main_fatal h argv _ msg _ Hl eq_refl) as (Hm & Hc).
  split; [exact He|].
  rewrite Hm in *. simpl. repeat split; try assumption.
  now apply (no_spawn_after_ensure h py log0 _ _ Hf).
Qed.

Lemma post_install_verification_failure_witness :
  exit_status (main Hosts.still_not_importable []) = 1
  /\ Contains (stderr_written (main Hosts.still_not_importable []))
              "Installed notebook-mcp but it is still not importable"
  /\ backend_spawned (history (main Hosts.still_not_importable [])) = false.
Proof.
  destruct (post_install_verification_failure Hosts.still_not_importable []
              "/usr/bin/python3" [EvWhich "python"; EvWhich "python3"])
    as (_ & _ & Hb & Hs & Hc).
  - vm_compute. reflexivity.
  - vm_compute. reflexivity.
  - vm_compute. reflexivity.
  - vm_compute. reflexivity.
  - split; [exact Hs|]. split; [|exact Hb].
    eapply Contains_trans; [exact Hc|].
    apply is_infix_Contains. vm_compute. reflexivity.
Defined.

(** C8: the override is unset and no candidate resolves.
    [findPython] returns [null] without throwing, after probing the three
    candidates; the launcher spawns no child process, writes a message that
    names NOTEBOOK_MCP_PYTHON and Python 3.11+ and tells to set the variable,
    and exits with status 1. *)
Theorem no_interpreter_is_fatal (h : Host) (argv : list string) :
  env h !! "NOTEBOOK_MCP_PYTHON" = None ->
  (forall c, In c ["python"; "python3"; "py"] -> resolves h c = None) ->
  findPython h [] =
    (Normal None, [EvWhich "python"; EvWhich "python3"; EvWhich "py"])
  /\ history (main h argv) = [EvWhich "python"; EvWhich "python3"; EvWhich "py"]
  /\ exit_status (main h argv) = 1
  /\ Contains (stderr_written (main h argv)) "NOTEBOOK_MCP_PYTHON"
  /\ Contains (stderr_written (main h argv)) "Install Python 3.11+"
  /\ Contains (stderr_written (main h argv))
       "set NOTEBOOK_MCP_PYTHON to the full path of your python executable".
Proof.
  intros He Hnone.
  assert (Hf : findPython h [] =
               (Normal None, [EvWhich "python"; EvWhich "python3"; EvWhich "py"])).
  { rewrite findPython_falsy by now rewrite He.
    now rewrite (findPython_loop_none h candidates [] Hnone). }
  pose proof (launch_not_found h argv _ Hf) as Hl.
  destruct (main_fatal h argv _ python_not_found_message _ Hl eq_refl)
    as (Hm & Hc).
  split; [exact Hf|]. split; [now rewrite Hm|]. split; [now rewrite Hm|].
  repeat split; (eapply Contains_trans; [exact Hc|]);
    apply is_infix_Contains; vm_compute; reflexivity.
Qed.

Lemma no_interpreter_is_fatal_witness :
  findPython Hosts.no_interpreter [] =
    (Normal None, [EvWhich "python"; EvWhich "python3"; EvWhich "py"])
  /\ exit_status (main Hosts.no_interpreter ["--foo"]) = 1.
Proof.
  destruct (no_interpreter_is_fatal Hosts.no_interpreter ["--foo"])
    as (Hf & _ & Hs & _).
  - vm_compute. reflexivity.
  - intros c _. reflexivity.
  - split; [exact Hf | exact Hs].
Defined.

(** ** Installs that end without an exit status *)

Lemma new_Error_ext (h h' : Host) (msg : string) :
  stack_frames h' = stack_frames h -> new_Error h' msg = new_Error h msg.
Proof. unfold new_Error. now intros ->. Qed.

Lemma pip_ext (h h' : Host) :
  env h' = env h ->
  pip_spec h' = pip_spec h /\ pip_extraArgs h' = pip_extraArgs h.
Proof. unfold pip_spec, pip_extraArgs. now intros ->. Qed.

(** C10: the install command ends without an exit status and
    without a spawn error (it was killed by a signal).  [runChecked] returns
    normally; [ensureInstalled] goes on to the re-probe, and its outcome is
    the one of the re-probe: success, or the "still not importable" error,
    never the error of a failed install command.  It is the outcome of the
    same run on any host where the install command exits with status 0 and
    the probes come out the same. *)
Theorem install_without_status_counts_as_success (h : Host) (py : string)
    (log : list Event) :
  probe_ok h py log = false ->
  install_result h py (log ++ [probe_event py]) =
    {| error := None; status := None |} ->
  let install := install_event py (pip_spec h) (pip_extraArgs h) in
  runChecked h py (["-m"; "pip"; "install"; "-U"; pip_spec h] ++ pip_extraArgs h)
             (log ++ [probe_event py]) =
    (Normal tt, log ++ [probe_event py; install])
  /\ ensureInstalled h py log =
       (if probe_ok h py (log ++ [probe_event py; install]) then Normal tt
        else Throw (new_Error h not_importable_message),
        log ++ [probe_event py; install; probe_event py])
  /\ (forall h',
        env h' = env h ->
        stack_frames h' = stack_frames h ->
        probe_ok h' py log = false ->
        install_result h' py (log ++ [probe_event py]) =
          {| error := None; status := Some 0 |} ->
        probe_ok h' py (log ++ [probe_event py; install]) =
          probe_ok h py (log ++ [probe_event py; install]) ->
        ensureInstalled h' py log = ensureInstalled h py log).
Proof.
  intros Hok Hres install.
  assert (He : forall g st,
             probe_ok g py log = false ->
             install_result g py (log ++ [probe_event py]) =
               {| error := None; status := st |} ->
             st = Some 0 \/ st = None ->
             pip_spec g = pip_spec h -> pip_extraArgs g = pip_extraArgs h ->
             ensureInstalled g py log =
             (if probe_ok g py (log ++ [probe_event py; install]) then Normal tt
              else Throw (new_Error g not_importable_message),
              log ++ [probe_event py; install; probe_event py])).
  { intros g st Hg1 Hg2 Hst Hs Ha.
    rewrite (ensureInstalled_install_quiet g py log st) by assumption.
    now rewrite Hs, Ha. }
  split; [|split].
  - fold (pip_args h).
    rewrite (runChecked_install_quiet h py _ None) by auto.
    now rewrite app_two.
  - apply (He h None); auto.
  - intros h' Henv Hframes Hok' Hres' Hre.
    destruct (pip_ext h h' Henv) as (Hs & Ha).
    rewrite (He h' (Some 0)), (He h None); auto.
    now rewrite Hre, (new_Error_ext h h').
Qed.

Lemma install_without_status_counts_as_success_witness :
  ensureInstalled Hosts.install_killed "/usr/bin/python3" [] =
    (Throw (new_Error Hosts.install_killed not_importable_message),
     [probe_event "/usr/bin/python3";
      install_event "/usr/bin/python3" "notebook-mcp" [];
      probe_event "/usr/bin/python3"])
  /\ ensureInstalled Hosts.still_not_importable "/usr/bin/python3" [] =
     ensureInstalled Hosts.install_killed "/usr/bin/python3" [].
Proof.
  destruct (install_without_status_counts_as_success Hosts.install_killed
              "/usr/bin/python3" [])
    as (_ & He & Hsame).
  - vm_compute. reflexivity.
  - vm_compute. reflexivity.
  - split.
    + rewrite He. vm_compute. reflexivity.
    + apply (Hsame Hosts.still_not_importable); vm_compute; reflexivity.
Defined.

(** ** The install command line *)

Lemma split_cons (sep : ascii) (s : string) :
  exists t ts, Js.split sep s = t :: ts.
Proof.
  destruct s as [|c s]; simpl.
  - now eexists _, _.
  - destruct (Ascii.eqb c sep); [now eexists _, _|].
    destruct (Js.split sep s); now eexists _, _.
Qed.

Lemma filter_Boolean_cons (t : string) (ts : list string) :
  Js.filter_Boolean (t :: ts) = emit t ++ Js.filter_Boolean ts.
Proof. now destruct t. Qed.

(** [split] followed by [filter(Boolean)] reads the tokens: with [cur]
    already read on the first piece, it is [tokens_from] started at [cur]. *)
Lemma split_filter_tokens_from (s : string) :
  forall cur t ts,
    Js.split " " s = t :: ts ->
    Js.filter_Boolean ((cur +:+ t) :: ts) = tokens_from is_space cur s.
Proof.
  induction s as [|c s IH]; intros cur t ts; cbn [Js.split tokens_from].
  - intros [= <- <-]. rewrite append_empty_r. now destruct cur.
  - change (is_space c) with (Ascii.eqb c " "). destruct (Ascii.eqb c " ").
    + intros [= <- Hts]. rewrite append_empty_r, filter_Boolean_cons. f_equal.
      destruct (split_cons " " s) as (t' & ts' & Hs).
      rewrite <- (IH "" t' ts' Hs), <- Hts, Hs. reflexivity.
    + destruct (split_cons " " s) as (t' & ts' & Hs). rewrite Hs.
      intros [= <- <-].
      rewrite <- (IH (cur +:+ String c "") t' ts' Hs).
      now rewrite append_assoc.
Qed.

(** What the code computes from the value of NOTEBOOK_MCP_PIP_ARGS is its
    list of space-separated tokens. *)
Lemma split_filter_space_tokens (s : string) :
  Js.filter_Boolean (Js.split " " s) = space_tokens s.
Proof.
  destruct (split_cons " " s) as (t & ts & Hs). rewrite Hs.
  exact (split_filter_tokens_from s "" t ts Hs).
Qed.

Lemma tokens_from_ext (f g : ascii -> bool) (s : string) :
  (forall c, In c (list_ascii_of_string s) -> f c = g c) ->
  forall cur, tokens_from f cur s = tokens_from g cur s.
Proof.
  induction s as [|c s IH]; intros Hfg cur; simpl.
  - reflexivity.
  - rewrite (Hfg c) by now left.
    rewrite !IH by (intros c' Hc'; apply Hfg; now right).
    reflexivity.
Qed.

Lemma is_space_whitespace (c : ascii) : is_space c = true -> is_whitespace c = true.
Proof.
  unfold is_space, is_whitespace. intros Hc. simpl. now rewrite Hc.
Qed.

(** On a value whose only whitespace is the space character, both ways of
    splitting give the same tokens. *)
Lemma space_tokens_whitespace_tokens (s : string) :
  (forall c, In c (list_ascii_of_string s) -> is_whitespace c = true -> c = " "%char) ->
  space_tokens s = whitespace_tokens s.
Proof.
  intros Hs. apply tokens_from_ext. intros c Hc.
  destruct (is_whitespace c) eqn:Hw.
  - now rewrite (Hs c Hc Hw).
  - destruct (is_space c) eqn:Hsp; [|reflexivity].
    apply is_space_whitespace in Hsp. congruence.
Qed.

Lemma length_snoc (cur : string) (c : ascii) :
  String.length (cur +:+ String c "") = S (String.length cur).
Proof.
  induction cur as [|x cur IH]; [reflexivity|].
  rewrite append_cons. simpl. now rewrite IH.
Qed.

Lemma emit_length (cur : string) :
  list_sum (map String.length (emit cur)) = String.length cur.
Proof. destruct cur; simpl; lia. Qed.

(** The tokens together have the characters that are not separators. *)
Lemma tokens_from_length (f : ascii -> bool) (s : string) :
  forall cur,
    list_sum (map String.length (tokens_from f cur s)) =
    (String.length cur +
     length (List.filter (fun c => negb (f c)) (list_ascii_of_string s)))%nat.
Proof.
  induction s as [|c s IH]; intros cur; cbn [tokens_from].
  - rewrite emit_length. simpl. lia.
  - simpl. destruct (f c); simpl.
    + rewrite map_app, list_sum_app, emit_length, IH. simpl. lia.
    + rewrite IH, length_snoc. lia.
Qed.

Lemma not_whitespace_le_not_space (s : string) :
  (length (List.filter (fun c => negb (is_whitespace c)) (list_ascii_of_string s))
   <= length (List.filter (fun c => negb (is_space c)) (list_ascii_of_string s)))%nat.
Proof.
  induction s as [|c s IH]; simpl; [lia|].
  destruct (is_space c) eqn:Hsp.
  - rewrite (is_space_whitespace c Hsp). simpl. exact IH.
  - destruct (is_whitespace c); simpl; lia.
Qed.

Lemma same_count_only_spaces (s : string) :
  length (List.filter (fun c => negb (is_space c)) (list_ascii_of_string s)) =
  length (List.filter (fun c => negb (is_whitespace c)) (list_ascii_of_string s)) ->
  forall c, In c (list_ascii_of_string s) -> is_whitespace c = true -> c = " "%char.
Proof.
  induction s as [|x s IH]; simpl; [tauto|].
  pose proof (not_whitespace_le_not_space s) as Hle.
  destruct (is_space x) eqn:Hsp.
  - rewrite (is_space_whitespace x Hsp). simpl. intros Heq c [<- | Hc] Hw.
    + unfold is_space in Hsp. now apply Ascii.eqb_eq in Hsp.
    + now apply IH.
  - destruct (is_whitespace x) eqn:Hwx; simpl; intros Heq c [<- | Hc] Hw.
    + lia.
    + lia.
    + congruence.
    + apply IH; [lia | assumption | assumption].
Qed.

(** Both ways of splitting give the same tokens only on a value that has
    no whitespace character other than the space. *)
Lemma whitespace_tokens_space_tokens_only (s : string) :
  space_tokens s = whitespace_tokens s ->
  forall c, In c (list_ascii_of_string s) -> is_whitespace c = true -> c = " "%char.
Proof.
  intros Heq. apply same_count_only_spaces.
  pose proof (tokens_from_length is_space s "") as Hs.
  pose proof (tokens_from_length is_whitespace s "") as Hw.
  fold (tokens is_space s) in Hs. fold (space_tokens s) in Hs.
  fold (tokens is_whitespace s) in Hw. fold (whitespace_tokens s) in Hw.
  rewrite Heq in Hs. simpl in Hs, Hw. lia.
Qed.

Lemma or_string_default (v : option string) (d : string) :
  Js.or_string v d =
  match v with
  | Some s => if decide (s = "") then d else s
  | None => d
  end.
Proof. destruct v as [[|c s]|]; reflexivity. Qed.

(** C3, as stated, on extra arguments separated by a tab: split
    on whitespace they are two tokens, but the install command gets them as
    one argument. *)
Lemma install_args_tab_not_split :
  let args := "--quiet" +:+ Hosts.tab +:+ "--no-cache-dir" in
  let py := "/usr/bin/python3" in
  env Hosts.tab_separated_args !! "NOTEBOOK_MCP_PIP_ARGS" = Some args
  /\ whitespace_tokens args = ["--quiet"; "--no-cache-dir"]
  /\ snd (ensureInstalled Hosts.tab_separated_args py []) =
     [probe_event py; install_event py "notebook-mcp" [args]; probe_event py]
  /\ snd (ensureInstalled Hosts.tab_separated_args py []) <>
     [probe_event py;
      install_event py "notebook-mcp" (whitespace_tokens args);
      probe_event py].
Proof.
  intros args py.
  assert (Hs : snd (ensureInstalled Hosts.tab_separated_args py []) =
               [probe_event py; install_event py "notebook-mcp" [args];
                probe_event py]) by (vm_compute; reflexivity).
  repeat split; try (vm_compute; reflexivity).
  rewrite Hs. vm_compute. discriminate.
Qed.

(** C3 (amended): when the probe has failed, the next child
    process of [ensureInstalled] is the interpreter run with
    [-m pip install -U], the package spec (NOTEBOOK_MCP_PIP_SPEC, or
    [notebook-mcp] when that is unset or empty) and then the tokens of
    NOTEBOOK_MCP_PIP_ARGS split on the space character, empty tokens
    dropped, in order.  These are the whitespace-separated tokens exactly
    when the value has no whitespace character other than the space. *)
Theorem install_command_line (h : Host) (python : string) (log : list Event) :
  probe_ok h python log = false ->
  let spec :=
    match env h !! "NOTEBOOK_MCP_PIP_SPEC" with
    | Some s => if decide (s = "") then "notebook-mcp" else s
    | None => "notebook-mcp"
    end in
  let args := default "" (env h !! "NOTEBOOK_MCP_PIP_ARGS") in
  let extra := space_tokens args in
  (exists rest,
     snd (ensureInstalled h python log) =
     log ++ [probe_event python;
             EvSpawnSync python (["-m"; "pip"; "install"; "-U"; spec] ++ extra)
                         StdioInherit] ++ rest)
  /\ (extra = whitespace_tokens args <->
      forall c, In c (list_ascii_of_string args) ->
                is_whitespace c = true -> c = " "%char).
Proof.
  intros Hok spec args extra.
  assert (Hspec : pip_spec h = spec).
  { unfold pip_spec. now rewrite or_string_default. }
  assert (Hextra : pip_extraArgs h = extra).
  { unfold pip_extraArgs. rewrite split_filter_space_tokens.
    unfold extra, args. f_equal.
    now destruct (env h !! "NOTEBOOK_MCP_PIP_ARGS") as [[|c s]|]. }
  split.
  2: { split; [apply whitespace_tokens_space_tokens_only
               | apply space_tokens_whitespace_tokens]. }
  rewrite ensureInstalled_probe_failed by assumption.
  pose proof (runChecked_history h python (pip_args h)
                (log ++ [probe_event python])) as Hh.
  unfold pip_args in Hh at 2. rewrite Hspec, Hextra, app_two in Hh.
  destruct (runChecked h python (pip_args h) (log ++ [probe_event python]))
    as [[[]|e] log2]; simpl in Hh; subst log2; simpl.
  - exists [probe_event python]. now rewrite <- !app_assoc.
  - exists []. reflexivity.
Qed.

Lemma install_command_line_witness :
  (exists rest,
     snd (ensureInstalled Hosts.space_separated_args "/usr/bin/python3" []) =
     [probe_event "/usr/bin/python3";
      EvSpawnSync "/usr/bin/python3"
        ["-m"; "pip"; "install"; "-U"; "notebook-mcp==1.2";
         "--quiet"; "--no-cache-dir"] StdioInherit] ++ rest)
  /\ ~ (forall c,
          In c (list_ascii_of_string ("--quiet" +:+ Hosts.tab +:+ "--no-cache-dir")) ->
          is_whitespace c = true -> c = " "%char).
Proof.
  split.
  - destruct (install_command_line Hosts.space_separated_args
                "/usr/bin/python3" [])
      as ((rest & Hrest) & _).
    + vm_compute. reflexivity.
    + exists rest. rewrite Hrest. vm_compute. reflexivity.
  - destruct (install_command_line Hosts.tab_separated_args
                "/usr/bin/python3" [])
      as (_ & Hiff).
    + vm_compute. reflexivity.
    + intros Hall. apply Hiff in Hall. vm_compute in Hall. discriminate.
Defined.

(** ** Every run of the launcher *)

Lemma findPython_total (h : Host) :
  exists r n,
    findPython h [] = (Normal r, map EvWhich (firstn n candidates)).
Proof.
  unfold findPython.
  destruct (Js.truthy_opt (env h !! "NOTEBOOK_MCP_PYTHON")).
  - now exists (env h !! "NOTEBOOK_MCP_PYTHON"), 0%nat.
  - destruct (findPython_loop_total h candidates []) as (r & n & Hrn).
    now exists r, n.
Qed.

Lemma settle_history (h : Host) (ev : ChildEvent) (log : list Event) :
  snd (settle h ev log) = log.
Proof.
  destruct ev as [e | code [sg|]]; try reflexivity.
  simpl. now destruct (Js.truthy sg).
Qed.

Lemma or_zero_default (code : option Z) : Js.or_zero code = default 0 code.
Proof.
  destruct code as [n|]; [|reflexivity].
  simpl. now destruct (Z.eqb_spec n 0) as [->|].
Qed.

Lemma settle_exit (h : Host) (code : option Z) (sg : option string)
    (log : list Event) :
  Js.truthy_opt sg = false ->
  settle h (ChildExit code sg) log = (Normal (default 0 code), log).
Proof.
  intros Hsg. rewrite <- or_zero_default.
  destruct sg as [sg|]; [|reflexivity].
  simpl in *. now rewrite Hsg.
Qed.

(** [settle] fulfils the promise only on an exit without signal. *)
Lemma settle_Normal (h : Host) (ev : ChildEvent) (log log' : list Event) (v : Z) :
  settle h ev log = (Normal v, log') ->
  exists code sg, ev = ChildExit code sg /\ Js.truthy_opt sg = false.
Proof.
  destruct ev as [e | code [sg|]]; simpl.
  - discriminate.
  - destruct (Js.truthy sg) eqn:Hsg; [discriminate|].
    intros _. now exists code, (Some sg).
  - intros _. now exists code, None.
Qed.

(** The five ways a run can go, with the history of each. *)
Lemma launch_cases (h : Host) (argv : list string) :
  exists n,
    let log0 := map EvWhich (firstn n candidates) in
    (findPython h [] = (Normal None, log0)
     /\ launch h argv [] = (Throw (new_Error h python_not_found_message), log0))
    \/ exists py,
         findPython h [] = (Normal (Some py), log0)
         /\ let P := probe_event py in
            let I := install_event py (pip_spec h) (pip_extraArgs h) in
            let B := backend_event py argv in
            (probe_ok h py log0 = true
             /\ launch h argv [] =
                settle h (backend_outcome h py argv (log0 ++ [P]))
                       (log0 ++ [P; B]))
            \/ (probe_ok h py log0 = false
                /\ exists e, launch h argv [] = (Throw e, log0 ++ [P; I]))
            \/ (probe_ok h py log0 = false
                /\ probe_ok h py (log0 ++ [P; I]) = false
                /\ launch h argv [] =
                   (Throw (new_Error h not_importable_message),
                    log0 ++ [P; I; P]))
            \/ (probe_ok h py log0 = false
                /\ probe_ok h py (log0 ++ [P; I]) = true
                /\ launch h argv [] =
                   settle h (backend_outcome h py argv (log0 ++ [P; I; P]))
                          (log0 ++ [P; I; P; B])).
Proof.
  destruct (findPython_total h) as ([py|] & n & Hf); exists n; cbv zeta.
  2: { left. split; [exact Hf | now apply launch_not_found]. }
  right. exists py. split; [exact Hf|].
  rewrite (launch_found h argv py _ Hf).
  set (log0 := map EvWhich (firstn n candidates)).
  destruct (probe_ok h py log0) eqn:Hok.
  - left. split; [reflexivity|].
    rewrite ensureInstalled_probe_ok by assumption. now rewrite app_two.
  - right. rewrite ensureInstalled_probe_failed by assumption.
    pose proof (runChecked_history h py (pip_args h) (log0 ++ [probe_event py]))
      as Hh.
    rewrite install_event_eq, app_two in Hh.
    destruct (runChecked h py (pip_args h) (log0 ++ [probe_event py]))
      as [[[]|e] log2]; simpl in Hh; subst log2.
    + right. rewrite <- !app_assoc. cbn [app].
      destruct (probe_ok h py
                  (log0 ++ [probe_event py;
                            install_event py (pip_spec h) (pip_extraArgs h)]))
        eqn:Hre.
      * right. repeat split; reflexivity.
      * left. repeat split; reflexivity.
    + left. split; [reflexivity|]. now exists e.
Qed.

Lemma main_history (h : Host) (argv : list string) :
  history (main h argv) = snd (launch h argv []).
Proof. unfold main. now destruct (launch h argv []) as [[v|e] log]. Qed.

Lemma main_exit_zero (h : Host) (argv : list string) :
  exit_status (main h argv) = 0 <-> exists v, fst (launch h argv []) = Normal v.
Proof.
  unfold main. destruct (launch h argv []) as [[v|e] log]; simpl.
  - split; [now exists v | reflexivity].
  - split; [discriminate | now intros (v & ?)].
Qed.

Lemma no_spawn_in (l pre post : list Event) (ev : Event) :
  backend_spawned l = false -> is_spawn ev = true -> l <> pre ++ ev :: post.
Proof.
  intros Hl Hev ->. rewrite backend_spawned_app in Hl. simpl in Hl.
  rewrite Hev, orb_true_r in Hl. discriminate.
Qed.


Lemma no_spawn_before_backend (n : nat) (evs : list Event) :
  backend_spawned evs = false ->
  backend_spawned (map EvWhich (firstn n candidates) ++ evs) = false.
Proof.
  intros Hevs. now rewrite backend_spawned_app, backend_spawned_which.
Qed.

(** Without an override in force the first candidate is always probed. *)
Lemma findPython_loop_probes_first (h : Host) (c : string) (cs : list string)
    (log : list Event) :
  exists r m,
    findPython_loop h (c :: cs) log =
    (Normal r, log ++ map EvWhich (firstn (S m) (c :: cs))).
Proof.
  destruct (resolves h c) as [p|] eqn:Hc.
  - exists (Some p), 0%nat. now apply findPython_loop_hit.
  - destruct (findPython_loop_total h cs (log ++ [EvWhich c])) as (r & m & Hrm).
    exists r, m. rewrite findPython_loop_skip by assumption.
    rewrite Hrm. simpl. now rewrite <- app_assoc.
Qed.

(** X1: The shape of every run: PATH probes first, then child processes.
    The probes are the first [n] of [python], [python3], [py]: none when a
    non-empty override is set, at least one when the override is unset or
    empty.  After them there is either no child process at all, or one of
    four sequences of child processes, all of them run with the interpreter
    that [findPython] returned.  In particular the install command runs at
    most once and never before a probe, and the backend is spawned at most
    once. *)
Theorem run_history_shape (h : Host) (argv : list string) :
  exists n evs,
    history (main h argv) =
      map EvWhich (firstn n ["python"; "python3"; "py"]) ++ evs
    /\ (forall v, env h !! "NOTEBOOK_MCP_PYTHON" = Some v -> v <> "" -> n = 0%nat)
    /\ (env h !! "NOTEBOOK_MCP_PYTHON" = None
        \/ env h !! "NOTEBOOK_MCP_PYTHON" = Some "" -> (1 <= n)%nat)
    /\ (evs = []
        \/ exists py,
             fst (findPython h []) = Normal (Some py)
             /\ In evs (child_sequences h py argv)).
Proof.
  rewrite main_history.
  assert (Hn : exists n,
             snd (findPython h []) =
               map EvWhich (firstn n ["python"; "python3"; "py"])
             /\ (forall v, env h !! "NOTEBOOK_MCP_PYTHON" = Some v ->
                           v <> "" -> n = 0%nat)
             /\ (env h !! "NOTEBOOK_MCP_PYTHON" = None
                 \/ env h !! "NOTEBOOK_MCP_PYTHON" = Some "" -> (1 <= n)%nat)).
  { destruct (env h !! "NOTEBOOK_MCP_PYTHON") as [v|] eqn:He.
    - destruct (decide (v = "")) as [-> | Hv].
      + destruct (findPython_loop_probes_first h "python" ["python3"; "py"] [])
          as (r & m & Hrm).
        exists (S m). rewrite findPython_falsy by now rewrite He.
        unfold candidates. rewrite Hrm.
        split; [reflexivity|]. split; [|lia]. now intros v [= <-].
      + exists 0%nat. unfold findPython. rewrite He. cbn [Js.truthy_opt].
        rewrite (truthy_nonempty v Hv). unfold ret. cbn [snd].
        split; [reflexivity|]. split; [reflexivity|].
        intros [? | [= ->]]; congruence.
    - destruct (findPython_loop_probes_first h "python" ["python3"; "py"] [])
        as (r & m & Hrm).
      exists (S m). rewrite findPython_falsy by now rewrite He.
      unfold candidates. rewrite Hrm.
      split; [reflexivity|]. split; [discriminate | lia]. }
  destruct Hn as (n & Hlog & Hzero & Hone).
  destruct (launch_cases h argv) as (n' & Hcases). cbv zeta in Hcases.
  assert (Hlog0 : forall r, findPython h [] =
                              (r, map EvWhich (firstn n' candidates)) ->
                  map EvWhich (firstn n' candidates) =
                  map EvWhich (firstn n ["python"; "python3"; "py"])).
  { intros r Hr. now rewrite Hr in Hlog. }
  exists n.
  destruct Hcases as [(Hf & ->) | (py & Hf & Hcases)].
  - exists []. simpl. rewrite (Hlog0 _ Hf), app_nil_r. auto.
  - assert (Hpy : fst (findPython h []) = Normal (Some py)) by now rewrite Hf.
    unfold child_sequences.
    destruct Hcases as [(_ & ->) | [(_ & e & ->) | [(_ & _ & ->) | (_ & _ & ->)]]];
      rewrite ?settle_history; simpl; rewrite (Hlog0 _ Hf);
      eexists; (split; [reflexivity|]); (split; [exact Hzero|]);
      (split; [exact Hone|]); right; exists py; (split; [exact Hpy|]);
      simpl; auto.
Qed.



(** X3: The launcher ends with status 0 exactly when the backend was spawned
    and exited without a signal, whatever its exit code; in every other run
    it ends with status 1. *)
Theorem exit_status_zero_iff (h : Host) (argv : list string) :
  (exit_status (main h argv) = 0 \/ exit_status (main h argv) = 1)
  /\ (exit_status (main h argv) = 0 <->
      exists py before code sg,
        history (main h argv) = before ++ [backend_event py argv]
        /\ backend_outcome h py argv before = ChildExit code sg
        /\ Js.truthy_opt sg = false).
Proof.
  split.
  { unfold main. destruct (launch h argv []) as [[v|e] log]; auto. }
  rewrite main_exit_zero, main_history.
  destruct (launch_cases h argv) as (n & Hcases). cbv zeta in Hcases.
  set (log0 := map EvWhich (firstn n candidates)) in *.
  assert (H0 : forall evs, backend_spawned evs = false ->
                           backend_spawned (log0 ++ evs) = false)
    by apply no_spawn_before_backend.
  assert (Hsettle : forall py before,
            launch h argv [] =
              settle h (backend_outcome h py argv before)
                     (before ++ [backend_event py argv]) ->
            backend_spawned before = false ->
            (exists v, fst (launch h argv []) = Normal v) <->
            exists py' before' code sg,
              snd (launch h argv []) = before' ++ [backend_event py' argv]
              /\ backend_outcome h py' argv before' = ChildExit code sg
              /\ Js.truthy_opt sg = false).
  { intros py before Hl Hb. rewrite Hl, settle_history. split.
    - intros (v & Hv).
      destruct (settle h _ _) as [c log'] eqn:Hs. simpl in Hv. subst c.
      apply settle_Normal in Hs as (code & sg & Hev & Hsg).
      now exists py, before, code, sg.
    - intros (py' & before' & code & sg & Heq & Hout & Hsg).
      apply app_inj_tail in Heq as (<- & [= <-]).
      rewrite Hout, settle_exit by assumption. now eexists. }
  assert (Hthrow : forall e log,
            launch h argv [] = (Throw e, log) ->
            backend_spawned log = false ->
            (exists v, fst (launch h argv []) = Normal v) <->
            exists py' before' code sg,
              snd (launch h argv []) = before' ++ [backend_event py' argv]
              /\ backend_outcome h py' argv before' = ChildExit code sg
              /\ Js.truthy_opt sg = false).
  { intros e log Hl Hb. rewrite Hl. simpl. split.
    - now intros (v & ?).
    - intros (py' & before' & code & sg & Heq & _).
      exfalso. now apply (no_spawn_in log before' [] (backend_event py' argv)). }
  destruct Hcases as [(Hf & Hl) | (py & Hf & Hcases)].
  - apply (Hthrow _ _ Hl). rewrite <- (app_nil_r log0). now apply H0.
  - destruct Hcases as [(_ & Hl) | [(_ & e & Hl) | [(_ & _ & Hl) | (_ & _ & Hl)]]].
    + apply (Hsettle py (log0 ++ [probe_event py])).
      * now rewrite app_two.
      * now apply H0.
    + apply (Hthrow _ _ Hl). now apply H0.
    + apply (Hthrow _ _ Hl). now apply H0.
    + apply (Hsettle py (log0 ++ [probe_event py;
                                  install_event py (pip_spec h) (pip_extraArgs h);
                                  probe_event py])).
      * now rewrite <- app_assoc.
      * now apply H0.
Qed.

(** ** Other ways through the Dependency Ensurer and the Process Supervisor *)

Lemma runChecked_error (h : Host) (cmd : string) (args : list string)
    (log : list Event) (e : Js.Error) :
  error (spawnSync_result h (log ++ [EvSpawnSync cmd args StdioInherit])) = Some e ->
  runChecked h cmd args log = (Throw e, log ++ [EvSpawnSync cmd args StdioInherit]).
Proof.
  intros He. unfold runChecked, bind. rewrite spawnSync_eq. now rewrite He.
Qed.

(** X4: A failed probe, an install that exits 0 and a re-probe that exits 0:
    [ensureInstalled] returns normally after these three child processes
    and the backend is spawned next. *)
Theorem install_then_importable (h : Host) (argv : list string) (py : string)
    (log0 : list Event) :
  findPython h [] = (Normal (Some py), log0) ->
  probe_ok h py log0 = false ->
  install_result h py (log0 ++ [probe_event py]) =
    {| error := None; status := Some 0 |} ->
  let install := install_event py (pip_spec h) (pip_extraArgs h) in
  probe_ok h py (log0 ++ [probe_event py; install]) = true ->
  ensureInstalled h py log0 =
    (Normal tt, log0 ++ [probe_event py; install; probe_event py])
  /\ history (main h argv) =
     log0 ++ [probe_event py; install; probe_event py; backend_event py argv].
Proof.
  intros Hf Hok Hres install Hre.
  assert (He : ensureInstalled h py log0 =
               (Normal tt, log0 ++ [probe_event py; install; probe_event py])).
  { rewrite (ensureInstalled_install_quiet h py log0 (Some 0)); auto.
    fold install. now rewrite Hre. }
  split; [exact He|].
  rewrite main_history, (launch_found h argv py log0 Hf), He, settle_history.
  now rewrite <- app_assoc.
Qed.

Lemma install_then_importable_witness :
  history (main Scenarios.install_then_importable ["--transport"; "stdio"]) =
  [EvWhich "python"; EvWhich "python3";
   probe_event "/usr/bin/python3";
   install_event "/usr/bin/python3" "notebook-mcp" [];
   probe_event "/usr/bin/python3";
   backend_event "/usr/bin/python3" ["--transport"; "stdio"]].
Proof.
  destruct (install_then_importable Scenarios.install_then_importable
              ["--transport"; "stdio"] "/usr/bin/python3"
              [EvWhich "python"; EvWhich "python3"])
    as (_ & Hh).
  - vm_compute. reflexivity.
  - vm_compute. reflexivity.
  - vm_compute. reflexivity.
  - vm_compute. reflexivity.
  - exact Hh.
Defined.

(** What [main] writes for a rejection is the report of the error. *)
Lemma toString_cases (e : Js.Error) :
  (Js.name e <> "" -> Js.message e <> "" ->
   Js.toString e = Js.name e +:+ ": " +:+ Js.message e)
  /\ (Js.name e = "" -> Js.toString e = Js.message e)
  /\ (Js.message e = "" -> Js.toString e = Js.name e).
Proof.
  unfold Js.toString.
  destruct (Js.name e) as [|x n], (Js.message e) as [|y m];
    repeat split; intros; congruence.
Qed.

Lemma main_rejected_report (h : Host) (argv : list string) (e : Js.Error)
    (log : list Event) :
  launch h argv [] = (Throw e, log) ->
  history (main h argv) = log
  /\ exit_status (main h argv) = 1
  /\ error_report e (stderr_written (main h argv)).
Proof.
  intros Hl. rewrite (main_rejected h argv e log Hl). cbn [history exit_status stderr_written].
  split; [reflexivity|]. split; [reflexivity|].
  destruct (toString_cases e) as (Hnm & Hn & Hm).
  unfold error_report, diagnostic. cbv zeta. split.
  - intros s -> Hs. now rewrite (truthy_nonempty s Hs).
  - intros Hstack.
    assert (Hd : match Js.stack e with
                 | Some s => if Js.truthy s then s else Js.toString e
                 | None => Js.toString e
                 end = Js.toString e).
    { now destruct Hstack as [-> | ->]. }
    rewrite Hd. repeat split.
    + intros H1 H2. now rewrite Hnm, !append_assoc.
    + intros H1. now rewrite Hn.
    + intros H1. now rewrite Hm.
Qed.

(** X5: The install command could not be run at all ([spawnSync] reports an
    error, whatever it reports as status): [ensureInstalled] throws that
    very error, not one of its own, without a re-probe; the launcher exits
    with status 1 after writing the report of that error: its stack when it
    has one, else its name, ": " and its message, and then a line feed. *)
Theorem install_not_run_is_fatal (h : Host) (argv : list string) (py : string)
    (log0 : list Event) (e : Js.Error) :
  findPython h [] = (Normal (Some py), log0) ->
  probe_ok h py log0 = false ->
  error (install_result h py (log0 ++ [probe_event py])) = Some e ->
  let install := install_event py (pip_spec h) (pip_extraArgs h) in
  ensureInstalled h py log0 = (Throw e, log0 ++ [probe_event py; install])
  /\ history (main h argv) = log0 ++ [probe_event py; install]
  /\ exit_status (main h argv) = 1
  /\ error_report e (stderr_written (main h argv)).
Proof.
  intros Hf Hok Herr install.
  assert (He : ensureInstalled h py log0 =
               (Throw e, log0 ++ [probe_event py; install])).
  { rewrite ensureInstalled_probe_failed by assumption.
    rewrite (runChecked_error h py (pip_args h) _ e) by exact Herr.
    now rewrite app_two. }
  split; [exact He|].
  apply main_rejected_report. now apply (main_ensure_failed h argv py log0).
Qed.

Lemma install_not_run_is_fatal_witness :
  stderr_written (main Scenarios.missing_interpreter []) =
    "Error: spawnSync /nonexistent/python ENOENT" +:+ String "010"%char ""
    +:+ "    at launch (lib/launcher.js)" +:+ String "010"%char ""
  /\ history (main Scenarios.missing_interpreter []) =
     [EvSpawnSync "/nonexistent/python" ["-c"; "import notebook_mcp"] StdioIgnore;
      EvSpawnSync "/nonexistent/python"
        ["-m"; "pip"; "install"; "-U"; "notebook-mcp"] StdioInherit]
  /\ stderr_written (main Scenarios.install_boom []) =
     "Error: boom" +:+ String "010"%char ""
  /\ exit_status (main Scenarios.install_boom []) = 1.
Proof.
  destruct (install_not_run_is_fatal Scenarios.missing_interpreter []
              "/nonexistent/python" []
              (Scenarios.enoent_sync "/nonexistent/python"))
    as (_ & Hh & _ & Hstack & _);
    [vm_compute; reflexivity | vm_compute; reflexivity
     | vm_compute; reflexivity |].
  destruct (install_not_run_is_fatal Scenarios.install_boom []
              "/usr/bin/python3" [EvWhich "python"; EvWhich "python3"]
              Scenarios.boom)
    as (_ & _ & Hs & _ & Hplain);
    [vm_compute; reflexivity | vm_compute; reflexivity
     | vm_compute; reflexivity |].
  split; [|split; [|split]].
  - rewrite (Hstack _ eq_refl); [reflexivity | discriminate].
  - rewrite Hh. reflexivity.
  - destruct (Hplain (or_introl eq_refl)) as (Hnm & _).
    rewrite Hnm; [reflexivity | discriminate | discriminate].
  - exact Hs.
Defined.

(** X6: The backend could not be started (the child emits "error"): [launch]
    rejects with that very error after the one spawn; the launcher exits
    with status 1 after writing the report of that error: its stack when it
    has one, else its name, ": " and its message, and then a line feed. *)
Theorem backend_not_started_is_fatal (h : Host) (argv : list string)
    (py : string) (log0 log1 : list Event) (e : Js.Error) :
  findPython h [] = (Normal (Some py), log0) ->
  ensureInstalled h py log0 = (Normal tt, log1) ->
  backend_outcome h py argv log1 = ChildError e ->
  launch h argv [] = (Throw e, log1 ++ [backend_event py argv])
  /\ history (main h argv) = log1 ++ [backend_event py argv]
  /\ exit_status (main h argv) = 1
  /\ error_report e (stderr_written (main h argv)).
Proof.
  intros Hf He Hb.
  assert (Hl : launch h argv [] = (Throw e, log1 ++ [backend_event py argv])).
  { now rewrite (launch_found h argv py log0 Hf), He, Hb. }
  split; [exact Hl | now apply main_rejected_report].
Qed.

Lemma backend_not_started_is_fatal_witness :
  stderr_written (main Scenarios.backend_not_started []) =
    "Error: spawn /usr/bin/python3 ENOENT" +:+ String "010"%char ""
    +:+ "    at launch (lib/launcher.js)" +:+ String "010"%char ""
  /\ exit_status (main Scenarios.backend_not_started []) = 1
  /\ stderr_written (main Scenarios.backend_boom ["--foo"]) =
     "Error: boom" +:+ String "010"%char ""
  /\ history (main Scenarios.backend_boom ["--foo"]) =
     [EvWhich "python"; EvWhich "python3";
      EvSpawnSync "/usr/bin/python3" ["-c"; "import notebook_mcp"] StdioIgnore;
      EvSpawn "/usr/bin/python3" ["-m"; "notebook_mcp.server"; "--foo"]
              StdioInherit].
Proof.
  destruct (backend_not_started_is_fatal Scenarios.backend_not_started []
              "/usr/bin/python3" [EvWhich "python"; EvWhich "python3"]
              [EvWhich "python"; EvWhich "python3"; probe_event "/usr/bin/python3"]
              (Scenarios.enoent "/usr/bin/python3"))
    as (_ & _ & Hs & Hstack & _);
    [vm_compute; reflexivity | vm_compute; reflexivity
     | vm_compute; reflexivity |].
  destruct (backend_not_started_is_fatal Scenarios.backend_boom ["--foo"]
              "/usr/bin/python3" [EvWhich "python"; EvWhich "python3"]
              [EvWhich "python"; EvWhich "python3"; probe_event "/usr/bin/python3"]
              Scenarios.boom)
    as (_ & Hh & _ & _ & Hplain);
    [vm_compute; reflexivity | vm_compute; reflexivity
     | vm_compute; reflexivity |].
  split; [|split; [|split]].
  - rewrite (Hstack _ eq_refl); [reflexivity | discriminate].
  - exact Hs.
  - destruct (Hplain (or_introl eq_refl)) as (Hnm & _).
    rewrite Hnm; [reflexivity | discriminate | discriminate].
  - rewrite Hh. reflexivity.
Defined.

(** X7: A backend that exits without a signal: the promise of [launch] is
    fulfilled with the exit code itself, for every code, and with 0 when the
    exit event carries no code. *)
Theorem launch_resolves_with_exit_code (h : Host) (argv : list string)
    (py : string) (log0 log1 : list Event) (code : option Z)
    (sg : option string) :
  findPython h [] = (Normal (Some py), log0) ->
  ensureInstalled h py log0 = (Normal tt, log1) ->
  backend_outcome h py argv log1 = ChildExit code sg ->
  Js.truthy_opt sg = false ->
  launch h argv [] = (Normal (default 0 code), log1 ++ [backend_event py argv]).
Proof.
  intros Hf He Hb Hsg.
  rewrite (launch_found h argv py log0 Hf), He, Hb.
  now apply settle_exit.
Qed.

Lemma launch_resolves_with_exit_code_witness :
  launch Scenarios.backend_exits_42 ["--port"; "8080"] [] =
  (Normal 42,
   [EvWhich "python"; EvWhich "python3"; probe_event "/usr/bin/python3";
    backend_event "/usr/bin/python3" ["--port"; "8080"]]).
Proof.
  apply (launch_resolves_with_exit_code Scenarios.backend_exits_42
           ["--port"; "8080"] "/usr/bin/python3"
           [EvWhich "python"; EvWhich "python3"]
           [EvWhich "python"; EvWhich "python3"; probe_event "/usr/bin/python3"]
           (Some 42) None).
  - vm_compute. reflexivity.
  - vm_compute. reflexivity.
  - vm_compute. reflexivity.
  - reflexivity.
Defined.

(** ** More on the Runtime Locator *)

(** X8: An override set to the empty string counts for nothing: the locator
    does what it does on a host where the variable is unset. *)
Theorem empty_override_is_unset (h h' : Host) (log : list Event) :
  env h !! "NOTEBOOK_MCP_PYTHON" = Some "" ->
  env h' !! "NOTEBOOK_MCP_PYTHON" = None ->
  (forall c, which_sync h' c = which_sync h c) ->
  findPython h log = findPython h' log.
Proof.
  intros He He' Hw.
  rewrite !findPython_falsy by (rewrite ?He, ?He'; reflexivity).
  symmetry. now apply findPython_loop_ext.
Qed.

Lemma empty_override_is_unset_witness :
  findPython Hosts.empty_override [] = findPython Scenarios.unset_override [].
Proof.
  apply (empty_override_is_unset Hosts.empty_override Scenarios.unset_override []).
  - vm_compute. reflexivity.
  - vm_compute. reflexivity.
  - intros c. reflexivity.
Defined.

(** X9: The interpreter path that [findPython] returns is never the empty
    string, whatever the override and whatever [which.sync] returns. *)
Theorem findPython_path_nonempty (h : Host) (log log' : list Event) (py : string) :
  findPython h log = (Normal (Some py), log') -> py <> "".
Proof.
  intros Hf. apply findPython_truthy in Hf. now destruct py.
Qed.

Lemma findPython_path_nonempty_witness : "/usr/bin/python" <> "".
Proof.
  apply (findPython_path_nonempty Hosts.empty_override [] [EvWhich "python"]).
  vm_compute. reflexivity.
Defined.

(** ** The environment the launcher reads *)

Lemma findPython_ext (h h' : Host) (log : list Event) :
  env h' !! "NOTEBOOK_MCP_PYTHON" = env h !! "NOTEBOOK_MCP_PYTHON" ->
  (forall c, which_sync h' c = which_sync h c) ->
  findPython h' log = findPython h log.
Proof.
  intros He Hw. unfold findPython. rewrite He.
  destruct (Js.truthy_opt _); [reflexivity | now apply findPython_loop_ext].
Qed.

Lemma new_Error_same (h h' : Host) (msg : string) :
  (forall m, stack_frames h' m = stack_frames h m) ->
  new_Error h' msg = new_Error h msg.
Proof. intros Hs. unfold new_Error. now rewrite Hs. Qed.

Lemma runChecked_ext (h h' : Host) (cmd : string) (args : list string)
    (log : list Event) :
  (forall l, spawnSync_result h' l = spawnSync_result h l) ->
  (forall m, stack_frames h' m = stack_frames h m) ->
  runChecked h' cmd args log = runChecked h cmd args log.
Proof.
  intros Hs Hf. unfold runChecked, bind. rewrite !spawnSync_eq, Hs.
  destruct (error _); [reflexivity|].
  destruct (status _) as [n|]; [|reflexivity].
  destruct (negb (n =? 0)); [|reflexivity].
  now rewrite (new_Error_same h h').
Qed.

Lemma ensureInstalled_ext (h h' : Host) (py : string) (log : list Event) :
  same_but_other_variables h h' ->
  ensureInstalled h' py log = ensureInstalled h py log.
Proof.
  intros (_ & Hspec & Hargs & _ & Hs & _ & Hf).
  assert (Hp : forall l, probe_ok h' py l = probe_ok h py l).
  { intros l. unfold probe_ok. now rewrite Hs. }
  assert (Ha : pip_args h' = pip_args h).
  { unfold pip_args, pip_spec, pip_extraArgs. now rewrite Hspec, Hargs. }
  destruct (probe_ok h py log) eqn:Hok.
  - rewrite !ensureInstalled_probe_ok; auto. now rewrite Hp.
  - rewrite !ensureInstalled_probe_failed; auto; [|now rewrite Hp].
    rewrite Ha, (runChecked_ext h h') by assumption.
    destruct (runChecked h py (pip_args h) _) as [[[]|e] log2]; [|reflexivity].
    now rewrite Hp, (new_Error_same h h').
Qed.

Lemma settle_ext (h h' : Host) (ev : ChildEvent) (log : list Event) :
  (forall m, stack_frames h' m = stack_frames h m) ->
  settle h' ev log = settle h ev log.
Proof.
  intros Hf. destruct ev as [e | code [sg|]]; try reflexivity.
  simpl. now rewrite (new_Error_same h h').
Qed.

(** X10: What the launcher itself does depends on the environment through
    NOTEBOOK_MCP_PYTHON, NOTEBOOK_MCP_PIP_SPEC and NOTEBOOK_MCP_PIP_ARGS
    only: on two hosts that agree on these three variables and on what PATH
    and the child processes answer, the launcher writes the same text, ends
    with the same status and makes the same PATH probes and starts the same
    child processes (same command, same arguments, same stdio mode),
    whatever else the environment holds.  The environment handed to the
    backend is the whole of [process.env] on either host; it is not among
    the things compared here. *)
Theorem other_variables_are_not_read (h h' : Host) (argv : list string) :
  same_but_other_variables h h' ->
  stderr_written (main h' argv) = stderr_written (main h argv)
  /\ exit_status (main h' argv) = exit_status (main h argv)
  /\ history (main h' argv) = history (main h argv).
Proof.
  intros Hsame.
  pose proof Hsame as (Hpy & _ & _ & Hw & _ & Hc & Hf).
  assert (Hl : launch h' argv [] = launch h argv []).
  { destruct (findPython_total h) as ([py|] & n & Hfp);
      pose proof Hfp as Hfp'; rewrite <- (findPython_ext h h') in Hfp' by assumption.
    - rewrite (launch_found h' argv py _ Hfp'), (launch_found h argv py _ Hfp).
      rewrite (ensureInstalled_ext h h') by assumption.
      destruct (ensureInstalled h py _) as [[[]|e] log1]; [|reflexivity].
      unfold backend_outcome. rewrite Hc. now apply settle_ext.
    - rewrite (launch_not_found h' argv _ Hfp'), (launch_not_found h argv _ Hfp).
      now rewrite (new_Error_same h h'). }
  unfold main. now rewrite Hl.
Qed.

Lemma other_variables_are_not_read_witness :
  stderr_written (main Scenarios.backend_variables ["--foo"]) =
    stderr_written (main Hosts.install_exits_3 ["--foo"])
  /\ exit_status (main Scenarios.backend_variables ["--foo"]) = 1
  /\ history (main Scenarios.backend_variables ["--foo"]) =
     [EvWhich "python"; EvWhich "python3";
      EvSpawnSync "/usr/bin/python3" ["-c"; "import notebook_mcp"] StdioIgnore;
      EvSpawnSync "/usr/bin/python3"
        ["-m"; "pip"; "install"; "-U"; "notebook-mcp"] StdioInherit].
Proof.
  destruct (other_variables_are_not_read Hosts.install_exits_3
              Scenarios.backend_variables ["--foo"])
    as (Hs & He & Hh).
  - repeat split; try (vm_compute; reflexivity); intros; reflexivity.
  - split; [exact Hs|]. split.
    + rewrite He. vm_compute. reflexivity.
    + rewrite Hh. vm_compute. reflexivity.
Defined.

(** ** The extra arguments of the install command *)



Lemma is_space_true (c : ascii) : is_space c = true -> c = " "%char.
Proof. unfold is_space. apply Ascii.eqb_eq. Qed.













